(** * Data-access layer of gestione-backend: [app/crud.py]

    A shallow embedding of the query, mutation and integrity operations of
    [app/crud.py].  The relational store is a record of tables, each table a
    finite map from primary key to row; a query is a list comprehension over
    the rows of the tables, with SQL's outer and inner joins written out. *)

From Stdlib Require Import ZArith Lia Ascii.
From stdpp Require Import base decidable option list sorting gmap strings fin_maps.

Local Open Scope Z_scope.

(** ** Python values used by the module *)

(** [datetime.datetime], compared field by field as Python does. *)
Record datetime := {
  year : Z; month : Z; day : Z;
  hour : Z; minute : Z; second : Z; microsecond : Z
}.

Global Instance datetime_eq_dec : EqDecision datetime.
Proof. solve_decision. Defined.

Definition datetime_key (d : datetime) : list Z :=
  [year d; month d; day d; hour d; minute d; second d; microsecond d].

Fixpoint lex_compare (a b : list Z) : comparison :=
  match a, b with
  | [], [] => Eq
  | [], _ :: _ => Lt
  | _ :: _, [] => Gt
  | x :: a', y :: b' =>
      match x ?= y with
      | Eq => lex_compare a' b'
      | c => c
      end
  end.

Definition datetime_compare (a b : datetime) : comparison :=
  lex_compare (datetime_key a) (datetime_key b).

(** [a <= b] on datetimes. *)
Definition datetime_le (a b : datetime) : Prop := datetime_compare a b ≠ Gt.

Global Instance datetime_le_dec : RelDecision datetime_le.
Proof. intros a b. unfold datetime_le. apply _. Defined.

(** The exceptions the operations raise.  [HTTPException] carries the status
    code and the detail message. *)
Inductive exn :=
  | HTTPException (status_code : Z) (detail : string)
  | AttributeError
  | TypeError
  | ValueError.

Inductive result (A : Type) :=
  | Ok (a : A)
  | Raise (e : exn).
Arguments Ok {A} a.
Arguments Raise {A} e.

Definition Forbidden (e : exn) : Prop :=
  match e with HTTPException 403 _ => True | _ => False end.
Definition NotFound (e : exn) : Prop :=
  match e with HTTPException 404 _ => True | _ => False end.
Definition Conflict (e : exn) : Prop :=
  match e with HTTPException 400 _ => True | _ => False end.

(** Truth value of an [Optional[int]] argument in [if user_id:]: [None] and
    [0] are false. *)
Definition truthy (o : option Z) : Prop :=
  match o with Some n => n ≠ 0 | None => False end.

Global Instance truthy_dec o : Decision (truthy o).
Proof. destruct o; simpl; apply _. Defined.

(** ** Entity model *)

(** Modelled from the spec: [app/models.py] is not part of the sources; the
    rows below carry the columns that [app/crud.py] reads or writes in the
    operations modelled here, with the names [crud.py] uses.  The primary key
    [id] of a row is its key in the table.  [Report.work_id] is the only
    nullable column. *)
Module models.

Module User.
Record t := { first_name : string; last_name : string; username : string;
              email : string; role : string }.
End User.

Module Client.
Record t := { name : string }.
End Client.

Module Plant.
Record t := { name : string; client_id : Z }.
End Plant.

Module Machine.
Record t := { name : string; code : string; plant_id : Z }.
End Machine.

Module Commission.
Record t := { code : string; description : string; client_id : Z;
              status : string }.
End Commission.

Module Report.
Record t := {
  date : datetime;
  date_created : datetime;
  intervention_duration : string;
  intervention_type : string;
  intervention_location : string;
  type : string;
  work_id : option Z;
  description : string;
  supervisor : string;
  notes : string;
  trip_kms : string;
  cost : string;
  operator_id : Z
}.
End Report.

End models.

Global Instance User_eq_dec : EqDecision models.User.t.
Proof. solve_decision. Defined.
Global Instance Client_eq_dec : EqDecision models.Client.t.
Proof. solve_decision. Defined.
Global Instance Plant_eq_dec : EqDecision models.Plant.t.
Proof. solve_decision. Defined.
Global Instance Machine_eq_dec : EqDecision models.Machine.t.
Proof. solve_decision. Defined.
Global Instance Commission_eq_dec : EqDecision models.Commission.t.
Proof. solve_decision. Defined.
Global Instance Report_eq_dec : EqDecision models.Report.t.
Proof. solve_decision. Defined.

(** Modelled from the spec: [app/schemas.py] is not part of the sources; the
    fields of [ReportCreate] are those [create_report] and [edit_report]
    read. *)
Module schemas.

Module ReportCreate.
Record t := {
  type : string;
  date : datetime;
  intervention_duration : string;
  intervention_type : string;
  intervention_location : string;
  work_id : option Z;
  supervisor : string;
  description : string;
  notes : string;
  trip_kms : string;
  cost : string
}.
End ReportCreate.

End schemas.

Import models.

(** The store behind a session: one table per entity. *)
Record Store := {
  users : gmap Z User.t;
  clients : gmap Z Client.t;
  plants : gmap Z Plant.t;
  machines : gmap Z Machine.t;
  commissions : gmap Z Commission.t;
  reports : gmap Z Report.t
}.

(** ** Relational algebra of the queries *)

(** A row together with its primary key. *)
Abbreviation row A := (Z * A)%type.

(** [db.query(T)]: the rows of a table. *)
Definition query {A} (t : gmap Z A) : list (row A) := map_to_list t.

(** SQL equality of two nullable values: a comparison with [NULL] is never
    true. *)
Definition sql_eq (a b : option Z) : Prop :=
  match a, b with
  | Some x, Some y => x = y
  | _, _ => False
  end.

Global Instance sql_eq_dec a b : Decision (sql_eq a b).
Proof. destruct a, b; simpl; apply _. Defined.

(** The side of [.join(T, on)] for one left row: the rows of [T] that satisfy
    the [on] clause. *)
Definition join {B} (t : list B) (on : B → Prop) `{∀ b, Decision (on b)}
  : list B := filter on t.

(** The side of [.outerjoin(T, on)] for one left row: the matching rows, or
    one [NULL] row when there is none. *)
Definition outerjoin {B} (t : list B) (on : B → Prop) `{∀ b, Decision (on b)}
  : list (option B) :=
  match filter on t with
  | [] => [None]
  | bs => Some <$> bs
  end.

(** ** Query layer *)

(** One row of the join built by [get_reports], before the columns are
    selected. *)
Record Joined := {
  j_report : row Report.t;
  j_commission : option (row Commission.t);
  j_machine : option (row Machine.t);
  j_user : row User.t;
  j_plant : option (row Plant.t);
  j_client : row Client.t
}.

(** One row of the result of [get_reports]: the [Report] entity and the
    labelled columns. *)
Record ReportRow := {
  Report_ : row Report.t;
  commission_id : option Z;
  commission_code : option string;
  machine_id : option Z;
  machine_name : option string;
  operator_id : Z;
  first_name : string;
  last_name : string;
  client_id : Z;
  client_name : string
}.

Definition select_report_row (j : Joined) : ReportRow := {|
  Report_ := j_report j;
  commission_id := fst <$> j_commission j;
  commission_code := (Commission.code ∘ snd) <$> j_commission j;
  machine_id := fst <$> j_machine j;
  machine_name := (Machine.name ∘ snd) <$> j_machine j;
  operator_id := fst (j_user j);
  first_name := User.first_name (snd (j_user j));
  last_name := User.last_name (snd (j_user j));
  client_id := fst (j_client j);
  client_name := Client.name (snd (j_client j))
|}.

(** The [select_from(Report)] chain of [get_reports], one generator per
    joined table, in the order of the source. *)
Definition get_reports_joined (db : Store) : list Joined :=
  r ← query (reports db);
  c ← outerjoin (query (commissions db))
        (λ c, Report.type r.2 = "commission" ∧
              sql_eq (Report.work_id r.2) (Some c.1));
  m ← outerjoin (query (machines db))
        (λ m, Report.type r.2 = "machine" ∧
              sql_eq (Report.work_id r.2) (Some m.1));
  u ← join (query (users db)) (λ u, Report.operator_id r.2 = u.1);
  p ← outerjoin (query (plants db))
        (λ p, Report.type r.2 = "machine" ∧
              sql_eq ((Machine.plant_id ∘ snd) <$> m) (Some p.1));
  k ← join (query (clients db))
        (λ k, sql_eq ((Commission.client_id ∘ snd) <$> c) (Some k.1) ∨
              (sql_eq ((Plant.client_id ∘ snd) <$> p) (Some k.1) ∧
               Report.type r.2 = "machine"));
  [ {| j_report := r; j_commission := c; j_machine := m; j_user := u;
       j_plant := p; j_client := k |} ].

(** [order_by(Report.date.desc())]: [a] may come before [b] when the date of
    [a] is not earlier.  The sort is stable here; SQL leaves the order of
    rows with equal dates open. *)
Definition date_desc (a b : Joined) : Prop :=
  datetime_le (Report.date (j_report b).2) (Report.date (j_report a).2).

Global Instance date_desc_dec : RelDecision date_desc.
Proof. intros a b. unfold date_desc. apply _. Defined.

Definition get_reports (db : Store) (user_id : option Z) : list ReportRow :=
  let query := get_reports_joined db in
  let query :=
    if decide (truthy user_id)
    then filter (λ j, sql_eq (Some (Report.operator_id (j_report j).2)) user_id)
           query
    else query in
  select_report_row <$> merge_sort date_desc query.

(** [strftime] with the format ["%m/%Y"]: the month on two digits, a slash,
    and the year as the C library prints it for [%Y], in decimal without
    padding: four digits from the year 1000 on, fewer before (years are
    1..9999 in [datetime]). *)
Definition digit (n : Z) : ascii := ascii_of_N (48 + Z.to_N (n mod 10)).

Definition pad2 (n : Z) : string :=
  String (digit (n / 10)) (String (digit n) EmptyString).

Definition pad4 (n : Z) : string := pad2 (n / 100) +:+ pad2 n.

Definition strftime_Y (y : Z) : string :=
  if decide (1000 ≤ y) then pad4 y
  else if decide (100 ≤ y) then String (digit (y / 100)) (pad2 y)
  else if decide (10 ≤ y) then pad2 y
  else String (digit y) EmptyString.

Definition strftime_mY (d : datetime) : string :=
  pad2 (month d) +:+ "/" +:+ strftime_Y (year d).

(** Python's [set(...)] and [sorted(...)] on strings: the elements of a set
    come in no particular order, [sorted] orders them by code point. *)
Definition set (l : list string) : gset string := list_to_set l.
Definition sorted (s : gset string) : list string :=
  merge_sort String.le (elements s).

Definition get_months (db : Store) (user_id work_id : option Z) : list string :=
  let query := query (reports db) in
  let query :=
    if decide (truthy user_id)
    then filter (λ r, sql_eq (Some (Report.operator_id r.2)) user_id) query
    else query in
  let query :=
    if decide (truthy work_id)
    then filter (λ r, sql_eq (Report.work_id r.2) work_id) query
    else query in
  (* group_by(Report.date).order_by(Report.date) on the selected column *)
  let dates :=
    merge_sort datetime_le (remove_dups ((Report.date ∘ snd) <$> query)) in
  sorted (set (strftime_mY <$> dates)).

(** A Python string is a [string] with one character for each code point;
    [isascii] is [str.isascii]: every code point is below 128. *)
Definition isascii (s : string) : bool :=
  forallb (λ c, (N_of_ascii c <? 128)%N) (String.list_ascii_of_string s).

(** [datetime.datetime.strptime(s, "%Y-%m-%d")].  The argument is the
    [Optional[str]] the caller passes: [None] is rejected with a [TypeError],
    a string that does not denote a date with a [ValueError].  The fields
    follow the patterns of CPython's [_strptime]: a year of four digits, a
    month [1[0-2]|0[1-9]|[1-9]], a day [3[01]|[12]\d|0[1-9]|[1-9]| [1-9]],
    and the date must exist in the calendar.  The digits read for [\d] are
    0..9, the only decimal digits among the code points a [string] holds;
    what the parser returns for a date written with the decimal digits of
    another script is outside this model, and the properties that conclude
    a [ValueError] from it are stated for [isascii] strings. *)
Definition is_digit (c : ascii) : bool :=
  ((48 <=? N_of_ascii c) && (N_of_ascii c <=? 57))%N.

Fixpoint digits_value (acc : Z) (s : string) : option Z :=
  match s with
  | EmptyString => Some acc
  | String c s' =>
      if is_digit c
      then digits_value (10 * acc + (Z.of_N (N_of_ascii c) - 48)) s'
      else None
  end.

Fixpoint split (sep : ascii) (s : string) : list string :=
  match s with
  | EmptyString => [EmptyString]
  | String c s' =>
      if decide (c = sep) then EmptyString :: split sep s'
      else match split sep s' with
           | f :: fs => String c f :: fs
           | [] => [String c EmptyString]
           end
  end.

Definition year_field (s : string) : option Z :=
  if decide (String.length s = 4%nat) then digits_value 0 s else None.

Definition month_field (s : string) : option Z :=
  if decide (String.length s = 1 ∨ String.length s = 2)%nat then
    match digits_value 0 s with
    | Some m => if decide (1 ≤ m ≤ 12) then Some m else None
    | None => None
    end
  else None.

Definition day_field (s : string) : option Z :=
  match s with
  | String " " (String c EmptyString) =>
      match digits_value 0 (String c EmptyString) with
      | Some d => if decide (1 ≤ d) then Some d else None
      | None => None
      end
  | _ =>
      if decide (String.length s = 1 ∨ String.length s = 2)%nat then
        match digits_value 0 s with
        | Some d => if decide (1 ≤ d ≤ 31) then Some d else None
        | None => None
        end
      else None
  end.

Definition is_leap (y : Z) : bool :=
  ((y mod 4 =? 0) && negb (y mod 100 =? 0)) || (y mod 400 =? 0).

Definition days_in_month (y m : Z) : Z :=
  if decide (m = 2) then (if is_leap y then 29 else 28)
  else if decide (m = 4 ∨ m = 6 ∨ m = 9 ∨ m = 11) then 30
  else 31.

Definition strptime (s : option string) : result datetime :=
  match s with
  | None => Raise TypeError
  | Some s =>
      match split "-" s with
      | [y; m; d] =>
          match year_field y, month_field m, day_field d with
          | Some y, Some m, Some d =>
              if decide (1 ≤ y ∧ d ≤ days_in_month y m)
              then Ok {| year := y; month := m; day := d; hour := 0;
                         minute := 0; second := 0; microsecond := 0 |}
              else Raise ValueError
          | _, _, _ => Raise ValueError
          end
      | _ => Raise ValueError
      end
  end.

(** Sequencing of computations that may raise. *)
Definition result_bind {A B} (f : A → result B) (x : result A) : result B :=
  match x with
  | Ok a => f a
  | Raise e => Raise e
  end.

Global Instance result_mret : MRet result := λ A a, Ok a.
Global Instance result_mbind : MBind result := λ A B f x, result_bind f x.

(** The comparison [column == value] of SQLAlchemy in a [filter]: it is
    rendered [column IS NULL] when the Python value is [None] and
    [column = value] otherwise, so it holds exactly when the column holds
    the value. *)
Definition column_eq (column value : option Z) : Prop := column = value.

Global Instance column_eq_dec column value : Decision (column_eq column value).
Proof. unfold column_eq. apply _. Defined.

Module Interval.
(** One row of the join built by [get_reports_in_interval]. *)
Record Joined := {
  j_report : row Report.t;
  j_commission : row Commission.t;
  j_client : row Client.t;
  j_user : row User.t
}.

(** One row of its result. *)
Record Row := {
  Report_ : row Report.t;
  commission_description : string;
  commission_code : string;
  client_name : string;
  first_name : string;
  last_name : string
}.

Definition select (j : Joined) : Row := {|
  Report_ := j_report j;
  commission_description := Commission.description (j_commission j).2;
  commission_code := Commission.code (j_commission j).2;
  client_name := Client.name (j_client j).2;
  first_name := User.first_name (j_user j).2;
  last_name := User.last_name (j_user j).2
|}.
End Interval.

Definition get_reports_in_interval_joined (db : Store) : list Interval.Joined :=
  r ← query (reports db);
  c ← join (query (commissions db))
        (λ c, sql_eq (Report.work_id r.2) (Some c.1));
  k ← join (query (clients db)) (λ k, Commission.client_id c.2 = k.1);
  u ← join (query (users db)) (λ u, Report.operator_id r.2 = u.1);
  [ {| Interval.j_report := r; Interval.j_commission := c;
       Interval.j_client := k; Interval.j_user := u |} ].

Definition report_date (j : Interval.Joined) : datetime :=
  Report.date (Interval.j_report j).2.

Definition get_reports_in_interval (db : Store)
    (start_date end_date : option string) (work_id operator_id : option Z)
  : result (list Interval.Row) :=
  let query := get_reports_in_interval_joined db in
  let query :=
    if decide (work_id ≠ Some 0)
    then filter (λ j, column_eq (Report.work_id (Interval.j_report j).2) work_id)
           query
    else query in
  let query :=
    if decide (operator_id ≠ Some 0)
    then filter (λ j, column_eq
                        (Some (Report.operator_id (Interval.j_report j).2))
                        operator_id) query
    else query in
  query ←
    (if decide (start_date ≠ Some "" ∧ end_date ≠ Some "") then
       start_date_dt ← strptime start_date;
       end_date_dt ← strptime end_date;
       mret (filter (λ j, datetime_le start_date_dt (report_date j) ∧
                          datetime_le (report_date j) end_date_dt) query)
     else
       query ←
         (if decide (start_date ≠ Some "") then
            start_date_dt ← strptime start_date;
            mret (filter (λ j, datetime_le start_date_dt (report_date j)) query)
          else mret query);
       query ←
         (if decide (end_date ≠ Some "") then
            end_date_dt ← strptime end_date;
            mret (filter (λ j, datetime_le (report_date j) end_date_dt) query)
          else mret query);
       mret query);
  mret (Interval.select <$> query).

(** ** Operations on the session *)

(** An operation runs on the store of the session: it returns the store it
    leaves behind together with its value or the exception it raised.  An
    operation that raises before [db.commit()] leaves the store as it found
    it. *)
Definition Session (A : Type) : Type := Store → Store * result A.

Definition session_ret {A} (a : A) : Session A := λ db, (db, Ok a).

Definition session_bind {A B} (f : A → Session B) (c : Session A) : Session B :=
  λ db, match c db with
        | (db', Ok a) => f a db'
        | (db', Raise e) => (db', Raise e)
        end.

Global Instance Session_mret : MRet Session := @session_ret.
Global Instance Session_mbind : MBind Session := @session_bind.

Definition raise {A} (e : exn) : Session A := λ db, (db, Raise e).

(** Read from the store ([db.query(...)]). *)
Definition gets {A} (f : Store → A) : Session A := λ db, (db, Ok (f db)).

(** Write to the store ([db.add] or [db.delete], then [db.commit()]). *)
Definition commit (f : Store → Store) : Session unit := λ db, (f db, Ok tt).

(** [query.first()] and [query.get(id)]. *)
Definition first {A} (l : list A) : option A := head l.
Definition get {A} (t : gmap Z A) (id : Z) : option A := t !! id.

Definition with_users (f : gmap Z User.t → gmap Z User.t) (db : Store) :=
  {| users := f (users db); clients := clients db; plants := plants db;
     machines := machines db; commissions := commissions db;
     reports := reports db |}.
Definition with_clients (f : gmap Z Client.t → gmap Z Client.t) (db : Store) :=
  {| users := users db; clients := f (clients db); plants := plants db;
     machines := machines db; commissions := commissions db;
     reports := reports db |}.
Definition with_plants (f : gmap Z Plant.t → gmap Z Plant.t) (db : Store) :=
  {| users := users db; clients := clients db; plants := f (plants db);
     machines := machines db; commissions := commissions db;
     reports := reports db |}.
Definition with_machines (f : gmap Z Machine.t → gmap Z Machine.t)
    (db : Store) :=
  {| users := users db; clients := clients db; plants := plants db;
     machines := f (machines db); commissions := commissions db;
     reports := reports db |}.
Definition with_commissions (f : gmap Z Commission.t → gmap Z Commission.t)
    (db : Store) :=
  {| users := users db; clients := clients db; plants := plants db;
     machines := machines db; commissions := f (commissions db);
     reports := reports db |}.
Definition with_reports (f : gmap Z Report.t → gmap Z Report.t) (db : Store) :=
  {| users := users db; clients := clients db; plants := plants db;
     machines := machines db; commissions := commissions db;
     reports := f (reports db) |}.

(** ** Mutation layer *)

(** The value [edit_report] returns: the edited report, or the pair
    [({"detail": "Errore"}, 400)], which is returned and not raised. *)
Inductive edit_result :=
  | Edited (db_report : row Report.t)
  | ErrorPair (detail : string) (code : Z).

(** The assignments of [edit_report] to the columns of [db_report]: every
    column is assigned but [date_created]. *)
Definition overwrite (db_report : Report.t) (report : schemas.ReportCreate.t)
    (user_id : Z) : Report.t := {|
  Report.type := schemas.ReportCreate.type report;
  Report.date := schemas.ReportCreate.date report;
  Report.intervention_duration :=
    schemas.ReportCreate.intervention_duration report;
  Report.intervention_type := schemas.ReportCreate.intervention_type report;
  Report.intervention_location :=
    schemas.ReportCreate.intervention_location report;
  Report.work_id := schemas.ReportCreate.work_id report;
  Report.supervisor := schemas.ReportCreate.supervisor report;
  Report.description := schemas.ReportCreate.description report;
  Report.notes := schemas.ReportCreate.notes report;
  Report.trip_kms := schemas.ReportCreate.trip_kms report;
  Report.cost := schemas.ReportCreate.cost report;
  Report.operator_id := user_id;
  Report.date_created := Report.date_created db_report
|}.

Definition edit_report (report_id : Z) (report : schemas.ReportCreate.t)
    (user_id : Z) : Session edit_result :=
  db_report ← gets (λ db,
    first (filter (λ r : row Report.t, r.1 = report_id) (query (reports db))));
  match db_report with
  | Some (id, db_report) =>
      let db_report := overwrite db_report report user_id in
      commit (with_reports (insert id db_report));;
      mret (Edited (id, db_report))
  | None => mret (ErrorPair "Errore" 400)
  end.

(** The primary key the database gives a new row: one above the largest in
    use. *)
Definition next_id {A} (t : gmap Z A) : Z :=
  1 + foldr Z.max 0 ((fst <$> map_to_list t) : list Z).

(** [create_report]; [now] is the value of [datetime.datetime.now()]. *)
Definition create_report (now : datetime) (report : schemas.ReportCreate.t)
    (user_id : Z) : Session (row Report.t) :=
  let trip_kms :=
    if decide (schemas.ReportCreate.trip_kms report = "") then "0.0"
    else schemas.ReportCreate.trip_kms report in
  let cost :=
    if decide (schemas.ReportCreate.cost report = "") then "0.0"
    else schemas.ReportCreate.cost report in
  let db_report := {|
    Report.date := schemas.ReportCreate.date report;
    Report.intervention_duration :=
      schemas.ReportCreate.intervention_duration report;
    Report.intervention_type := schemas.ReportCreate.intervention_type report;
    Report.type := schemas.ReportCreate.type report;
    Report.intervention_location :=
      schemas.ReportCreate.intervention_location report;
    Report.work_id := schemas.ReportCreate.work_id report;
    Report.description := schemas.ReportCreate.description report;
    Report.supervisor := schemas.ReportCreate.supervisor report;
    Report.notes := schemas.ReportCreate.notes report;
    Report.trip_kms := trip_kms;
    Report.cost := cost;
    Report.operator_id := user_id;
    Report.date_created := now
  |} in
  id ← gets (λ db, next_id (reports db));
  commit (with_reports (insert id db_report));;
  mret (id, db_report).

(** ** Integrity layer *)

Definition delete_user (user_id current_user_id : Z) : Session string :=
  user ← gets (λ db, get (users db) user_id);
  refuse ←
    (if decide (user_id = 1) then mret true
     else if decide (user_id = current_user_id) then mret true
     else match user with
          | Some u => mret (bool_decide (User.role u = "admin"))
          | None => raise AttributeError   (* [user.role] on [None] *)
          end);
  if refuse : bool then
    raise (HTTPException 403 "Non puoi eliminare questo utente")
  else
    match user with
    | None => raise (HTTPException 404 "Utente non trovato")
    | Some _ =>
        commit (with_users (delete user_id));;
        mret "Utente eliminato"
    end.

Definition delete_client (client_id : Z) : Session string :=
  client ← gets (λ db, get (clients db) client_id);
  exists_ ← gets (λ db,
    first (filter (λ c : row Commission.t, Commission.client_id c.2 = client_id)
             (query (commissions db))));
  if client is None then
    raise (HTTPException 404 "Cliente non trovato")
  else if exists_ is Some _ then
    raise (HTTPException 400 "Non puoi eliminare questo cliente")
  else
    commit (with_clients (delete client_id));;
    mret "Cliente eliminato".

Definition delete_commission (commission_id : Z) : Session string :=
  commission ← gets (λ db, get (commissions db) commission_id);
  exists_ ← gets (λ db,
    first (filter (λ r : row Report.t, Report.type r.2 = "commission")
             (filter (λ r : row Report.t,
                        sql_eq (Report.work_id r.2) (Some commission_id))
                (query (reports db)))));
  if commission is None then
    raise (HTTPException 404 "Commessa non trovata")
  else if exists_ is Some _ then
    raise (HTTPException 400 "Non puoi eliminare questa commessa")
  else
    commit (with_commissions (delete commission_id));;
    mret "Commessa eliminata".

Definition delete_machine (machine_id : Z) : Session string :=
  machine ← gets (λ db, get (machines db) machine_id);
  exists_ ← gets (λ db,
    first (filter (λ r : row Report.t, Report.type r.2 = "machine")
             (filter (λ r : row Report.t,
                        sql_eq (Report.work_id r.2) (Some machine_id))
                (query (reports db)))));
  if machine is None then
    raise (HTTPException 404 "Macchina non trovata")
  else if exists_ is Some _ then
    raise (HTTPException 400 "Non puoi eliminare questa macchina")
  else
    commit (with_machines (delete machine_id));;
    mret "Macchina eliminata".

Definition delete_plant (plant_id : Z) : Session string :=
  plant ← gets (λ db, get (plants db) plant_id);
  if plant is None then
    raise (HTTPException 404 "Stabilimento non trovato")
  else
    exists_ ← gets (λ db,
      first (filter (λ m : row Machine.t, Machine.plant_id m.2 = plant_id)
               (query (machines db))));
    if exists_ is Some _ then
      raise (HTTPException 400 "Non puoi eliminare questo stabilimento")
    else
      commit (with_plants (delete plant_id));;
      mret "Plant deleted".

(** ** Vocabulary of the properties *)

(** The client [k] of a machine-typed report [r], reached through the machine
    [work_id] names and the plant of that machine. *)
Definition client_via_machine (db : Store) (r : Report.t) (k : row Client.t)
  : Prop :=
  ∃ mid m p,
    Report.work_id r = Some mid ∧ machines db !! mid = Some m ∧
    plants db !! Machine.plant_id m = Some p ∧
    k.1 = Plant.client_id p ∧ clients db !! k.1 = Some k.2.

(** The machine of [r] has no plant row. *)
Definition machine_has_no_plant (db : Store) (r : Report.t) : Prop :=
  ∀ mid m,
    Report.work_id r = Some mid → machines db !! mid = Some m →
    plants db !! Machine.plant_id m = None.

(** The plant of the machine of [r] has no client row. *)
Definition plant_has_no_client (db : Store) (r : Report.t) : Prop :=
  ∀ mid m p,
    Report.work_id r = Some mid → machines db !! mid = Some m →
    plants db !! Machine.plant_id m = Some p →
    clients db !! Plant.client_id p = None.

(** ** Fixtures *)

Module Fixture.

Definition day (y m d : Z) : datetime :=
  {| year := y; month := m; day := d; hour := 0; minute := 0; second := 0;
     microsecond := 0 |}.

Definition report (type : string) (work_id : option Z) (operator_id : Z)
    (date : datetime) : Report.t :=
  {| Report.date := date; Report.date_created := day 2023 12 31;
     Report.intervention_duration := "2";
     Report.intervention_type := "ordinario";
     Report.intervention_location := "sede";
     Report.type := type; Report.work_id := work_id;
     Report.description := "revisione"; Report.supervisor := "Rossi";
     Report.notes := ""; Report.trip_kms := "12.5"; Report.cost := "80.0";
     Report.operator_id := operator_id |}.

Definition user (username role : string) : User.t :=
  {| User.first_name := "Mario"; User.last_name := "Bianchi";
     User.username := username; User.email := username +:+ "@example.org";
     User.role := role |}.

Definition machine (name : string) (plant_id : Z) : Machine.t :=
  {| Machine.name := name; Machine.code := "M"; Machine.plant_id := plant_id |}.

Definition commission (code : string) (client_id : Z) : Commission.t :=
  {| Commission.code := code; Commission.description := "impianto";
     Commission.client_id := client_id; Commission.status := "on" |}.

(** One client with one plant and one commission; machine 1 stands in
    plant 1, machine 2 in plant 2 whose client row is missing, machine 3
    in a plant that is missing. *)
Definition db : Store := {|
  users := {[ 1 := user "root" "admin"; 2 := user "mario" "user";
              3 := user "capo" "admin" ]};
  clients := {[ 1 := {| Client.name := "Acme" |} ]};
  plants := {[ 1 := {| Plant.name := "Nord"; Plant.client_id := 1 |};
               2 := {| Plant.name := "Sud"; Plant.client_id := 7 |} ]};
  machines := {[ 1 := machine "pressa" 1; 2 := machine "tornio" 2;
                 3 := machine "fresa" 9 ]};
  commissions := {[ 1 := commission "C-1" 1 ]};
  reports := {[ 1 := report "machine" (Some 1) 2 (day 2024 1 3);
                2 := report "machine" (Some 2) 2 (day 2024 1 4);
                3 := report "machine" (Some 3) 2 (day 2024 1 5);
                4 := report "commission" (Some 1) 2 (day 2023 2 6) ]}
|}.

(** A request that rewrites every field, and one that leaves [trip_kms]
    and [cost] empty. *)
Definition edit : schemas.ReportCreate.t := {|
  schemas.ReportCreate.type := "commission";
  schemas.ReportCreate.date := day 2024 2 10;
  schemas.ReportCreate.intervention_duration := "3";
  schemas.ReportCreate.intervention_type := "straordinario";
  schemas.ReportCreate.intervention_location := "cliente";
  schemas.ReportCreate.work_id := Some 1;
  schemas.ReportCreate.supervisor := "Verdi";
  schemas.ReportCreate.description := "sostituzione";
  schemas.ReportCreate.notes := "urgente";
  schemas.ReportCreate.trip_kms := "40.0";
  schemas.ReportCreate.cost := "120.0"
|}.

Definition blank : schemas.ReportCreate.t := {|
  schemas.ReportCreate.type := "machine";
  schemas.ReportCreate.date := day 2024 3 1;
  schemas.ReportCreate.intervention_duration := "1";
  schemas.ReportCreate.intervention_type := "ordinario";
  schemas.ReportCreate.intervention_location := "sede";
  schemas.ReportCreate.work_id := Some 1;
  schemas.ReportCreate.supervisor := "Verdi";
  schemas.ReportCreate.description := "controllo";
  schemas.ReportCreate.notes := "";
  schemas.ReportCreate.trip_kms := "";
  schemas.ReportCreate.cost := ""
|}.

End Fixture.

Module Fixture2.

(** A client that owns a plant and no commission. *)
Definition db : Store := {|
  users := {[ 1 := Fixture.user "root" "admin" ]};
  clients := {[ 1 := {| Client.name := "Acme" |} ]};
  plants := {[ 1 := {| Plant.name := "Nord"; Plant.client_id := 1 |} ]};
  machines := ∅;
  commissions := ∅;
  reports := ∅
|}.

End Fixture2.

(** A date argument of [get_reports_in_interval] that is the empty string or
    denotes a date. *)
Definition date_arg_ok (s : option string) : Prop :=
  s = Some "" ∨ ∃ d, strptime s = Ok d.

(** ** Remaining queries of the module *)

Definition get_plant_by_client (db : Store) (client_id : Z)
  : list (row Plant.t) :=
  filter (λ p : row Plant.t, Plant.client_id p.2 = client_id)
    (query (plants db)).

Definition get_machine_by_plant (db : Store) (plant_id : Z)
  : list (row Machine.t) :=
  filter (λ m : row Machine.t, Machine.plant_id m.2 = plant_id)
    (query (machines db)).

Definition get_machines (db : Store)
  : list (row Machine.t * row Plant.t * row Client.t) :=
  m ← query (machines db);
  p ← join (query (plants db)) (λ p, Machine.plant_id m.2 = p.1);
  k ← join (query (clients db)) (λ k, Plant.client_id p.2 = k.1);
  [ (m, p, k) ].

Module Detail.
(** The row [get_report_by_id] returns. *)
Record Row := {
  Report_ : row Report.t;
  commission_id : option Z;
  commission_code : option string;
  commission_description : option string;
  machine_id : option Z;
  machine_name : option string;
  operator_id : Z;
  first_name : string;
  last_name : string;
  client_id : Z;
  client_name : string;
  plant_id : option Z;
  plant_name : option string
}.

Definition select (j : Joined) : Row := {|
  Report_ := j_report j;
  commission_id := fst <$> j_commission j;
  commission_code := (Commission.code ∘ snd) <$> j_commission j;
  commission_description := (Commission.description ∘ snd) <$> j_commission j;
  machine_id := fst <$> j_machine j;
  machine_name := (Machine.name ∘ snd) <$> j_machine j;
  operator_id := fst (j_user j);
  first_name := User.first_name (snd (j_user j));
  last_name := User.last_name (snd (j_user j));
  client_id := fst (j_client j);
  client_name := Client.name (snd (j_client j));
  plant_id := fst <$> j_plant j;
  plant_name := (Plant.name ∘ snd) <$> j_plant j
|}.
End Detail.

(** The join of [get_report_by_id]: that of [get_reports], but the plant is
    joined on [Machine.plant_id] alone and the client on either
    [client_id]. *)
Definition get_report_by_id_joined (db : Store) : list Joined :=
  r ← query (reports db);
  c ← outerjoin (query (commissions db))
        (λ c, Report.type r.2 = "commission" ∧
              sql_eq (Report.work_id r.2) (Some c.1));
  m ← outerjoin (query (machines db))
        (λ m, Report.type r.2 = "machine" ∧
              sql_eq (Report.work_id r.2) (Some m.1));
  u ← join (query (users db)) (λ u, Report.operator_id r.2 = u.1);
  p ← outerjoin (query (plants db))
        (λ p, sql_eq ((Machine.plant_id ∘ snd) <$> m) (Some p.1));
  k ← join (query (clients db))
        (λ k, sql_eq ((Plant.client_id ∘ snd) <$> p) (Some k.1) ∨
              sql_eq ((Commission.client_id ∘ snd) <$> c) (Some k.1));
  [ {| j_report := r; j_commission := c; j_machine := m; j_user := u;
       j_plant := p; j_client := k |} ].

Definition get_report_by_id (db : Store) (report_id : Z) : option Detail.Row :=
  Detail.select <$>
    first (filter (λ j, (j_report j).1 = report_id)
             (get_report_by_id_joined db)).

(** [get_user_commissions]: the argument [user_id] is not read. *)
Definition get_user_commissions (db : Store) (user_id : Z)
  : list (row Commission.t * row Client.t) :=
  c ← query (commissions db);
  k ← join (query (clients db)) (λ k, Commission.client_id c.2 = k.1);
  [ (c, k) ].

(** [order_by(Client.name)]. *)
Definition by_client_name (a b : row Commission.t * row Client.t) : Prop :=
  String.le (Client.name a.2.2) (Client.name b.2.2).

Global Instance by_client_name_dec : RelDecision by_client_name.
Proof. intros a b. unfold by_client_name. apply _. Defined.

Definition get_commissions (db : Store) (client_id : option Z)
  : list (row Commission.t * row Client.t) :=
  let query :=
    c ← query (commissions db);
    k ← join (query (clients db)) (λ k, Commission.client_id c.2 = k.1);
    [ (c, k) ] in
  let query :=
    if decide (truthy client_id)
    then filter (λ ck, sql_eq (Some (Commission.client_id ck.1.2)) client_id)
           query
    else query in
  merge_sort by_client_name query.

Definition get_user_by_id (db : Store) (user_id : Z) : option (row User.t) :=
  first (filter (λ u : row User.t, u.1 = user_id) (query (users db))).

(** ** Reports of a month *)

(** [datetime.datetime.strptime(s, "%m/%Y")]: the month and the four digits
    of the year; the day is 1.  [None] stands for the [ValueError].  As for ["%Y-%m-%d"], the
    digits read are 0..9, and the properties that conclude a [ValueError]
    are stated for [isascii] strings. *)
Definition strptime_mY (s : string) : option datetime :=
  match split "/" s with
  | [m; y] =>
      match month_field m, year_field y with
      | Some m, Some y =>
          if decide (1 ≤ y)
          then Some {| year := y; month := m; day := 1; hour := 0;
                       minute := 0; second := 0; microsecond := 0 |}
          else None
      | _, _ => None
      end
  | _ => None
  end.

(** Calendar arithmetic on [datetime.date]: the day after and the day
    before, [None] beyond the years 1..9999 ([OverflowError]). *)
Definition next_day (d : datetime) : option datetime :=
  if decide (day d < days_in_month (year d) (month d)) then
    Some {| year := year d; month := month d; day := day d + 1; hour := hour d;
            minute := minute d; second := second d;
            microsecond := microsecond d |}
  else if decide (month d < 12) then
    Some {| year := year d; month := month d + 1; day := 1; hour := hour d;
            minute := minute d; second := second d;
            microsecond := microsecond d |}
  else if decide (year d < 9999) then
    Some {| year := year d + 1; month := 1; day := 1; hour := hour d;
            minute := minute d; second := second d;
            microsecond := microsecond d |}
  else None.

Definition prev_day (d : datetime) : option datetime :=
  if decide (1 < day d) then
    Some {| year := year d; month := month d; day := day d - 1; hour := hour d;
            minute := minute d; second := second d;
            microsecond := microsecond d |}
  else if decide (1 < month d) then
    Some {| year := year d; month := month d - 1;
            day := days_in_month (year d) (month d - 1); hour := hour d;
            minute := minute d; second := second d;
            microsecond := microsecond d |}
  else if decide (1 < year d) then
    Some {| year := year d - 1; month := 12; day := 31; hour := hour d;
            minute := minute d; second := second d;
            microsecond := microsecond d |}
  else None.

(** [d + timedelta(days=n)] and [d - timedelta(days=n)]. *)
Fixpoint add_days (n : nat) (d : datetime) : option datetime :=
  match n with
  | O => Some d
  | S n => next_day d ≫= add_days n
  end.

Fixpoint sub_days (n : nat) (d : datetime) : option datetime :=
  match n with
  | O => Some d
  | S n => prev_day d ≫= sub_days n
  end.

(** [d.replace(day=28)]; every month has a day 28. *)
Definition replace_day_28 (d : datetime) : datetime :=
  {| year := year d; month := month d; day := 28; hour := hour d;
     minute := minute d; second := second d; microsecond := microsecond d |}.

(** [CASE WHEN cond THEN value ELSE null END]. *)
Definition case_when (cond : Prop) `{Decision cond} (value : option Z)
  : option Z := if decide cond then value else None.

Module Month.
(** One row of the join of [get_reports_in_month] and of its result. *)
Record Joined := {
  j_report : row Report.t;
  j_commission : option (row Commission.t);
  j_machine : option (row Machine.t)
}.

Record Row := {
  Report_ : row Report.t;
  commission_id : option Z;
  commission_code : option string;
  machine_id : option Z;
  machine_name : option string
}.

Definition select (j : Joined) : Row := {|
  Report_ := j_report j;
  commission_id := fst <$> j_commission j;
  commission_code := (Commission.code ∘ snd) <$> j_commission j;
  machine_id := fst <$> j_machine j;
  machine_name := (Machine.name ∘ snd) <$> j_machine j
|}.

(** What a call comes to: the rows, or the exception raised while the month
    is parsed or the last day of the month is computed. *)
Inductive outcome :=
  | Rows (rows : list Row)
  | RaiseValueError
  | RaiseOverflowError.
End Month.

Definition get_reports_in_month_joined (db : Store) : list Month.Joined :=
  r ← query (reports db);
  c ← outerjoin (query (commissions db))
        (λ c, sql_eq (case_when (Report.type r.2 = "commission")
                        (Report.work_id r.2)) (Some c.1));
  m ← outerjoin (query (machines db))
        (λ m, sql_eq (case_when (Report.type r.2 = "machine")
                        (Report.work_id r.2)) (Some m.1));
  [ {| Month.j_report := r; Month.j_commission := c; Month.j_machine := m |} ].

Definition get_reports_in_month (db : Store) (month_ : string)
    (user_id : option Z) : Month.outcome :=
  match strptime_mY month_ with
  | None => Month.RaiseValueError
  | Some start_date =>
      match add_days 4 (replace_day_28 start_date) with
      | None => Month.RaiseOverflowError
      | Some end_date =>
          match sub_days (Z.to_nat (day end_date)) end_date with
          | None => Month.RaiseOverflowError
          | Some end_date =>
              let query := get_reports_in_month_joined db in
              let query :=
                filter (λ j, month (Report.date (Month.j_report j).2)
                             = month start_date ∧
                             year (Report.date (Month.j_report j).2)
                             = year start_date) query in
              let query :=
                if decide (truthy user_id)
                then filter (λ j, sql_eq
                               (Some (Report.operator_id (Month.j_report j).2))
                               user_id) query
                else query in
              Month.Rows (Month.select <$> query)
          end
      end
  end.

(** ** Deletion of a report *)

Definition delete_report (report_id user_id : Z) : Session string :=
  report ← gets (λ db, get (reports db) report_id);
  match report with
  | None => raise (HTTPException 404 "Intervento non trovato")
  | Some report =>
      if decide (Report.operator_id report ≠ user_id) then
        raise (HTTPException 403
                 "Non sei autorizzato a eliminare questo intervento")
      else
        commit (with_reports (delete report_id));;
        mret "Intervento eliminato"
  end.

(** ** Referential integrity of a store *)

(** Every commission has its client, every machine its plant, and every
    report typed ["commission"] or ["machine"] its commission or machine. *)
Definition commissions_resolved (db : Store) : Prop :=
  ∀ id c, commissions db !! id = Some c →
          is_Some (clients db !! Commission.client_id c).

Definition machines_resolved (db : Store) : Prop :=
  ∀ id m, machines db !! id = Some m →
          is_Some (plants db !! Machine.plant_id m).

Definition reports_resolved (db : Store) : Prop :=
  ∀ id r, reports db !! id = Some r →
    (Report.type r = "commission" →
     ∃ w, Report.work_id r = Some w ∧ is_Some (commissions db !! w)) ∧
    (Report.type r = "machine" →
     ∃ w, Report.work_id r = Some w ∧ is_Some (machines db !! w)).

(** Some commission-typed, or machine-typed, report names [id]. *)
Definition commission_reported (db : Store) (id : Z) : Prop :=
  ∃ rid r, reports db !! rid = Some r ∧ Report.type r = "commission" ∧
           Report.work_id r = Some id.

Definition machine_reported (db : Store) (id : Z) : Prop :=
  ∃ rid r, reports db !! rid = Some r ∧ Report.type r = "machine" ∧
           Report.work_id r = Some id.

Module Fixture3.

(** A store in which every reference resolves: two clients, one plant with
    one machine, three commissions of which the third is not reported, and
    reports of the operators 2 and 4. *)
Definition db : Store := {|
  users := {[ 1 := Fixture.user "root" "admin"; 2 := Fixture.user "mario" "user";
              3 := Fixture.user "capo" "admin"; 4 := Fixture.user "luigi" "user" ]};
  clients := {[ 1 := {| Client.name := "Beta" |};
                2 := {| Client.name := "Acme" |};
                3 := {| Client.name := "Gamma" |} ]};
  plants := {[ 1 := {| Plant.name := "Nord"; Plant.client_id := 1 |};
               2 := {| Plant.name := "Sud"; Plant.client_id := 1 |} ]};
  machines := {[ 1 := Fixture.machine "pressa" 1;
                 2 := Fixture.machine "tornio" 1 ]};
  commissions := {[ 1 := Fixture.commission "C-1" 1;
                    2 := Fixture.commission "C-2" 2;
                    3 := Fixture.commission "C-3" 2 ]};
  reports := {[ 1 := Fixture.report "machine" (Some 1) 2 (Fixture.day 2024 1 3);
                2 := Fixture.report "commission" (Some 1) 4
                       (Fixture.day 2024 1 20);
                3 := Fixture.report "commission" (Some 2) 2
                       (Fixture.day 2023 2 6) ]}
|}.

End Fixture3.

Module Fixture4.

(** The store of [Fixture2] with a machine in its plant. *)
Definition db : Store :=
  with_machines (insert 1 (Fixture.machine "pressa" 1)) Fixture2.db.

End Fixture4.

(** * Properties *)

(** ** Membership in joins and tables *)

Section relational.
Context {B : Type} (t : list B) (on : B → Prop) `{∀ b, Decision (on b)}.

Lemma elem_of_join b : b ∈ join t on ↔ on b ∧ b ∈ t.
Proof. unfold join. apply list_elem_of_filter. Qed.

Lemma elem_of_outerjoin o :
  o ∈ outerjoin t on ↔
  (o = None ∧ ∀ b, b ∈ t → ¬ on b) ∨ (∃ b, o = Some b ∧ on b ∧ b ∈ t).
Proof.
  unfold outerjoin. destruct (filter on t) as [|b0 bs] eqn:E.
  - rewrite list_elem_of_singleton. split.
    + intros ->. left. split; [done|]. intros b Hb Hon.
      assert (b ∈ filter on t) as Hf by (apply list_elem_of_filter; done).
      rewrite E in Hf. by apply not_elem_of_nil in Hf.
    + intros [[-> _]|(b & -> & Hon & Hb)]; [done|].
      assert (b ∈ filter on t) as Hf by (apply list_elem_of_filter; done).
      rewrite E in Hf. by apply not_elem_of_nil in Hf.
  - rewrite list_elem_of_fmap, <- E. split.
    + intros (b & -> & Hb). right. exists b.
      apply list_elem_of_filter in Hb. tauto.
    + intros [[-> Hno]|(b & -> & Hon & Hb)].
      * exfalso. assert (b0 ∈ filter on t) as Hf by (rewrite E; left).
        apply list_elem_of_filter in Hf as [? ?]. by eapply Hno.
      * exists b. split; [done|]. apply list_elem_of_filter; done.
Qed.
End relational.

Lemma elem_of_query {A} (t : gmap Z A) (r : row A) :
  r ∈ query t ↔ t !! r.1 = Some r.2.
Proof. destruct r. unfold query. apply elem_of_map_to_list. Qed.

(** A row of the join of [get_reports], read off the generators. *)
Lemma elem_of_get_reports_joined db j :
  j ∈ get_reports_joined db ↔
  let r := j_report j in
  r ∈ query (reports db) ∧
  j_commission j ∈ outerjoin (query (commissions db))
    (λ c, Report.type r.2 = "commission" ∧
          sql_eq (Report.work_id r.2) (Some c.1)) ∧
  j_machine j ∈ outerjoin (query (machines db))
    (λ m, Report.type r.2 = "machine" ∧
          sql_eq (Report.work_id r.2) (Some m.1)) ∧
  j_user j ∈ join (query (users db)) (λ u, Report.operator_id r.2 = u.1) ∧
  j_plant j ∈ outerjoin (query (plants db))
    (λ p, Report.type r.2 = "machine" ∧
          sql_eq ((Machine.plant_id ∘ snd) <$> j_machine j) (Some p.1)) ∧
  j_client j ∈ join (query (clients db))
    (λ k, sql_eq ((Commission.client_id ∘ snd) <$> j_commission j) (Some k.1) ∨
          (sql_eq ((Plant.client_id ∘ snd) <$> j_plant j) (Some k.1) ∧
           Report.type r.2 = "machine")).
Proof.
  unfold get_reports_joined. cbv zeta. split.
  - intros Hj.
    apply list_elem_of_bind in Hj as (r & Hj & Hr).
    apply list_elem_of_bind in Hj as (c & Hj & Hc).
    apply list_elem_of_bind in Hj as (m & Hj & Hm).
    apply list_elem_of_bind in Hj as (u & Hj & Hu).
    apply list_elem_of_bind in Hj as (p & Hj & Hp).
    apply list_elem_of_bind in Hj as (k & Hj & Hk).
    apply list_elem_of_singleton in Hj as ->. simpl. done.
  - destruct j as [r c m u p k]. simpl. intros (Hr & Hc & Hm & Hu & Hp & Hk).
    apply list_elem_of_bind. exists r. split; [|done].
    apply list_elem_of_bind. exists c. split; [|done].
    apply list_elem_of_bind. exists m. split; [|done].
    apply list_elem_of_bind. exists u. split; [|done].
    apply list_elem_of_bind. exists p. split; [|done].
    apply list_elem_of_bind. exists k. split; [|done].
    by apply list_elem_of_singleton.
Qed.

Lemma elem_of_get_reports db user_id row :
  row ∈ get_reports db user_id ↔
  ∃ j, row = select_report_row j ∧ j ∈ get_reports_joined db ∧
       (truthy user_id →
        sql_eq (Some (Report.operator_id (j_report j).2)) user_id).
Proof.
  unfold get_reports. cbv zeta. rewrite list_elem_of_fmap.
  setoid_rewrite merge_sort_Permutation.
  destruct (decide (truthy user_id)) as [Ht|Ht].
  - setoid_rewrite list_elem_of_filter. split.
    + intros (j & -> & Hop & Hj). by exists j.
    + intros (j & -> & Hj & Hop). exists j. auto.
  - split.
    + intros (j & -> & Hj). by exists j.
    + intros (j & -> & Hj & _). by exists j.
Qed.

Lemma first_is_Some {A} (l : list A) x : x ∈ l → is_Some (first l).
Proof. destruct l; [by intros ?%not_elem_of_nil|]. intros _. by eexists. Qed.

Lemma first_elem_of {A} (l : list A) x : first l = Some x → x ∈ l.
Proof. destruct l; [done|]. intros [= ->]. left. Qed.

(** ** [get_reports]: the client of a machine-typed report *)

Lemma machine_not_commission : "machine" ≠ "commission".
Proof. discriminate. Qed.

Lemma get_reports_joined_machine db j :
  j ∈ get_reports_joined db →
  Report.type (j_report j).2 = "machine" →
  j_commission j = None ∧
  ∃ m p,
    j_machine j = Some m ∧ j_plant j = Some p ∧
    Report.work_id (j_report j).2 = Some m.1 ∧
    machines db !! m.1 = Some m.2 ∧
    Machine.plant_id m.2 = p.1 ∧ plants db !! p.1 = Some p.2 ∧
    Plant.client_id p.2 = (j_client j).1 ∧
    clients db !! (j_client j).1 = Some (j_client j).2.
Proof.
  intros Hj Hty. apply elem_of_get_reports_joined in Hj. cbv zeta in Hj.
  destruct Hj as (_ & Hc & Hm & _ & Hp & Hk).
  apply elem_of_outerjoin in Hc as [[Hc _]|(c & _ & [Hc _] & _)];
    [|rewrite Hty in Hc; by destruct machine_not_commission].
  split; [done|]. rewrite Hc in Hk.
  apply elem_of_join in Hk as [[Hk|[Hk _]] Hkin]; [done|].
  apply elem_of_query in Hkin.
  apply elem_of_outerjoin in Hp as [[Hp _]|(p & Hp & [_ Hpm] & Hpin)];
    rewrite Hp in Hk; [done|].
  apply elem_of_query in Hpin.
  apply elem_of_outerjoin in Hm as [[Hm _]|(m & Hm & [_ Hmw] & Hmin)];
    rewrite Hm in Hpm; [done|].
  apply elem_of_query in Hmin.
  exists m, p. simpl in Hk, Hpm.
  destruct (Report.work_id (j_report j).2) as [w|] eqn:Hw; [|done].
  simpl in Hmw. subst w. done.
Qed.

(** A machine-typed report with its machine, the plant of the machine, the
    client of the plant and its operator makes a row of the join. *)
Lemma get_reports_joined_machine_intro db (r : row Report.t)
    (m : row Machine.t) (p : row Plant.t) (k : row Client.t) (u : row User.t) :
  Report.type r.2 = "machine" →
  reports db !! r.1 = Some r.2 →
  Report.work_id r.2 = Some m.1 → machines db !! m.1 = Some m.2 →
  p.1 = Machine.plant_id m.2 → plants db !! p.1 = Some p.2 →
  k.1 = Plant.client_id p.2 → clients db !! k.1 = Some k.2 →
  u.1 = Report.operator_id r.2 → users db !! u.1 = Some u.2 →
  {| j_report := r; j_commission := None; j_machine := Some m; j_user := u;
     j_plant := Some p; j_client := k |} ∈ get_reports_joined db.
Proof.
  intros Hty Hr Hw Hm Hmp Hp Hpk Hk Hru Hu.
  apply elem_of_get_reports_joined. cbv zeta. simpl.
  split; [by apply elem_of_query|].
  split.
  { apply elem_of_outerjoin. left. split; [done|].
    intros c _ [Hc _]. rewrite Hty in Hc. by destruct machine_not_commission. }
  split.
  { apply elem_of_outerjoin. right. exists m. rewrite Hw.
    repeat split; try done. by apply elem_of_query. }
  split; [apply elem_of_join; split; [done|by apply elem_of_query]|].
  split.
  { apply elem_of_outerjoin. right. exists p.
    repeat split; try done. by apply elem_of_query. }
  apply elem_of_join. split; [by right|by apply elem_of_query].
Qed.

(** C1: for a machine-typed report, every row [get_reports] returns for it
    carries no commission and the client reached through machine and plant;
    when that client is reached and the operator has a user row, the report
    is listed with that client under every operator filter its operator
    passes; when the machine has no plant row, or the plant no client row,
    the report is in no row of the result, whatever the operator filter. *)
Theorem get_reports_machine_client db user_id (r : row Report.t) :
  Report.type r.2 = "machine" →
  (∀ row, row ∈ get_reports db user_id → Report_ row = r →
     commission_id row = None ∧ machine_id row = Report.work_id r.2 ∧
     ∃ k, client_via_machine db r.2 k ∧
          client_id row = k.1 ∧ client_name row = Client.name k.2) ∧
  (∀ k u,
     reports db !! r.1 = Some r.2 → client_via_machine db r.2 k →
     users db !! Report.operator_id r.2 = Some u →
     (truthy user_id → user_id = Some (Report.operator_id r.2)) →
     ∃ row, row ∈ get_reports db user_id ∧ Report_ row = r ∧
            commission_id row = None ∧ machine_id row = Report.work_id r.2 ∧
            client_id row = k.1 ∧ client_name row = Client.name k.2) ∧
  (machine_has_no_plant db r.2 ∨ plant_has_no_client db r.2 →
   ∀ row, row ∈ get_reports db user_id → Report_ row ≠ r).
Proof.
  intros Hty.
  assert (∀ row, row ∈ get_reports db user_id → Report_ row = r →
     commission_id row = None ∧ machine_id row = Report.work_id r.2 ∧
     ∃ k, client_via_machine db r.2 k ∧
          client_id row = k.1 ∧ client_name row = Client.name k.2) as Hres.
  { intros row Hrow Hr.
    apply elem_of_get_reports in Hrow as (j & -> & Hj & _).
    simpl in Hr. subst r.
    destruct (get_reports_joined_machine db j Hj Hty)
      as (Hc & m & p & Hm & Hp & Hw & Hmin & Hmp & Hpin & Hpk & Hkin).
    simpl. rewrite Hc, Hm, Hw. simpl. repeat split.
    exists (j_client j). repeat split.
    exists m.1, m.2, p.2. rewrite Hmp. done. }
  split; [exact Hres|]. split.
  - intros k u Hr (mid & m & p & Hw & Hm & Hp & Hk & Hkin) Hu Hf.
    pose proof (get_reports_joined_machine_intro db r (mid, m)
                  (Machine.plant_id m, p) k (Report.operator_id r.2, u)
                  Hty Hr Hw Hm eq_refl Hp Hk Hkin eq_refl Hu) as Hj.
    eexists. split.
    { apply elem_of_get_reports. eexists. split; [reflexivity|].
      split; [exact Hj|]. intros Ht. simpl. by rewrite (Hf Ht). }
    simpl. by rewrite Hw.
  - intros Hno row Hrow Hr.
    destruct (Hres row Hrow Hr)
      as (_ & _ & k & (mid & m & p & Hw & Hm & Hp & Hk & Hkin) & _).
    destruct Hno as [Hno|Hno].
    + specialize (Hno mid m Hw Hm). congruence.
    + specialize (Hno mid m p Hw Hm Hp). congruence.
Qed.

Lemma get_reports_machine_client_witness :
  (∃ row,
     row ∈ get_reports Fixture.db (Some 2) ∧
     Report_ row
     = (1, Fixture.report "machine" (Some 1) 2 (Fixture.day 2024 1 3)) ∧
     commission_id row = None ∧ machine_id row = Some 1 ∧
     client_id row = 1 ∧ client_name row = "Acme") ∧
  plant_has_no_client Fixture.db
    (Fixture.report "machine" (Some 2) 2 (Fixture.day 2024 1 4)) ∧
  ¬ ∃ row,
      row ∈ get_reports Fixture.db None ∧
      Report_ row
      = (2, Fixture.report "machine" (Some 2) 2 (Fixture.day 2024 1 4)).
Proof.
  split.
  { apply (proj1 (proj2 (get_reports_machine_client Fixture.db (Some 2)
             (1, Fixture.report "machine" (Some 1) 2 (Fixture.day 2024 1 3))
             eq_refl)) (1, {| Client.name := "Acme" |})
             (Fixture.user "mario" "user")); [reflexivity| |reflexivity|done].
    exists 1, (Fixture.machine "pressa" 1),
      {| Plant.name := "Nord"; Plant.client_id := 1 |}. done. }
  assert (plant_has_no_client Fixture.db
            (Fixture.report "machine" (Some 2) 2 (Fixture.day 2024 1 4)))
    as Hno.
  { intros mid m p Hw Hm Hp. simpl in Hw. simplify_eq.
    vm_compute in Hm. simplify_eq. vm_compute in Hp. simplify_eq.
    vm_compute. reflexivity. }
  split; [exact Hno|]. intros (row & Hrow & Hr).
  apply (proj2 (proj2 (get_reports_machine_client Fixture.db None
           (2, Fixture.report "machine" (Some 2) 2 (Fixture.day 2024 1 4))
           eq_refl))) in Hr; [exact Hr|by right|exact Hrow].
Defined.

(** The rows of the fixture: report 1 resolves to client 1 through plant 1,
    reports 2 and 3 are left out, report 4 resolves through its commission. *)
Example get_reports_fixture :
  (λ row, ((Report_ row).1, commission_id row, machine_id row, client_id row))
    <$> get_reports Fixture.db None
  = [(1, None, Some 1, 1); (4, Some 1, None, 1)].
Proof. vm_compute. reflexivity. Qed.

(** ** [get_reports_in_interval] *)

Lemma elem_of_get_reports_in_interval_joined db j :
  j ∈ get_reports_in_interval_joined db →
  ∃ c : Z, Report.work_id (Interval.j_report j).2 = Some c.
Proof.
  unfold get_reports_in_interval_joined. intros Hj.
  apply list_elem_of_bind in Hj as (r & Hj & _).
  apply list_elem_of_bind in Hj as (c & Hj & Hc).
  apply list_elem_of_bind in Hj as (k & Hj & _).
  apply list_elem_of_bind in Hj as (u & Hj & _).
  apply list_elem_of_singleton in Hj as ->. simpl.
  apply elem_of_join in Hc as [Hc _].
  destruct (Report.work_id r.2) as [w|]; [by exists w|done].
Qed.

(** The join puts a report next to every commission whose id is its
    [work_id]; the type of the report is not read. *)
Lemma get_reports_in_interval_joined_intro db (r : row Report.t)
    (c : row Commission.t) (k : row Client.t) (u : row User.t) :
  reports db !! r.1 = Some r.2 → commissions db !! c.1 = Some c.2 →
  Report.work_id r.2 = Some c.1 →
  clients db !! k.1 = Some k.2 → Commission.client_id c.2 = k.1 →
  users db !! u.1 = Some u.2 → Report.operator_id r.2 = u.1 →
  {| Interval.j_report := r; Interval.j_commission := c;
     Interval.j_client := k; Interval.j_user := u |}
  ∈ get_reports_in_interval_joined db.
Proof.
  intros Hr Hc Hw Hk Hck Hu Hru. unfold get_reports_in_interval_joined.
  apply list_elem_of_bind. exists r. split; [|by apply elem_of_query].
  apply list_elem_of_bind. exists c. split.
  2:{ apply elem_of_join. split; [by rewrite Hw|by apply elem_of_query]. }
  apply list_elem_of_bind. exists k. split.
  2:{ apply elem_of_join. split; [done|by apply elem_of_query]. }
  apply list_elem_of_bind. exists u. split.
  2:{ apply elem_of_join. split; [done|by apply elem_of_query]. }
  by apply list_elem_of_singleton.
Qed.

Ltac interval_cases :=
  unfold get_reports_in_interval; cbv zeta;
  unfold mbind, mret, result_mbind, result_mret;
  repeat case_decide; simpl.

(** The rows of a result come from the join and pass the work filter unless
    it is the sentinel. *)
Lemma get_reports_in_interval_rows db start_date end_date work_id operator_id
    rows row :
  get_reports_in_interval db start_date end_date work_id operator_id = Ok rows →
  row ∈ rows →
  ∃ j, row = Interval.select j ∧ j ∈ get_reports_in_interval_joined db ∧
       (work_id ≠ Some 0 →
        Report.work_id (Interval.j_report j).2 = work_id).
Proof.
  interval_cases; intros Hres;
    repeat match type of Hres with
           | context [strptime ?s] =>
               destruct (strptime s); simpl in Hres; [|discriminate]
           end;
    injection Hres as <-;
    intros (j & -> & Hj)%list_elem_of_fmap; exists j;
    repeat (apply list_elem_of_filter in Hj as [? Hj]); done.
Qed.

Lemma get_reports_in_interval_returns db start_date end_date work_id
    operator_id :
  date_arg_ok start_date → date_arg_ok end_date →
  ∃ rows,
    get_reports_in_interval db start_date end_date work_id operator_id
    = Ok rows.
Proof.
  intros [->|[d1 H1]] [->|[d2 H2]]; interval_cases;
    rewrite ?H1, ?H2; simpl;
    try (exfalso; intuition congruence); by eexists.
Qed.

Lemma strptime_empty : strptime (Some "") = Raise ValueError.
Proof. reflexivity. Qed.

(** With the sentinels and the empty strings nothing is filtered. *)
Lemma get_reports_in_interval_unfiltered db :
  get_reports_in_interval db (Some "") (Some "") (Some 0) (Some 0)
  = Ok (Interval.select <$> get_reports_in_interval_joined db).
Proof. interval_cases; try done; tauto. Qed.

(** Whatever its type, a report whose [work_id] is the id of a commission
    with a client, filed by an existing operator, is returned. *)
Lemma get_reports_in_interval_any_type db (r : row Report.t)
    (c : Commission.t) (k : Client.t) (u : User.t) (w : Z) :
  reports db !! r.1 = Some r.2 → Report.work_id r.2 = Some w →
  commissions db !! w = Some c →
  clients db !! Commission.client_id c = Some k →
  users db !! Report.operator_id r.2 = Some u →
  ∃ rows row,
    get_reports_in_interval db (Some "") (Some "") (Some 0) (Some 0)
    = Ok rows ∧ row ∈ rows ∧ Interval.Report_ row = r.
Proof.
  intros Hr Hw Hc Hk Hu.
  pose proof (get_reports_in_interval_joined_intro db r (w, c)
                (Commission.client_id c, k) (Report.operator_id r.2, u))
    as Hj. simpl in Hj. specialize (Hj Hr Hc Hw Hk eq_refl Hu eq_refl).
  eexists _, _. split; [apply get_reports_in_interval_unfiltered|].
  split; [apply list_elem_of_fmap_2, Hj|reflexivity].
Qed.

(** C2: on the fixture, with every filter disabled, [get_reports_in_interval]
    returns report 1, which is machine-typed: its [work_id] 1 is also the id
    of commission 1, and the join compares nothing else. *)
Theorem get_reports_in_interval_machine_report :
  ∃ rows,
    get_reports_in_interval Fixture.db (Some "") (Some "") (Some 0) (Some 0)
      = Ok rows ∧
    (λ row, ((Interval.Report_ row).1, Report.type (Interval.Report_ row).2,
             Report.work_id (Interval.Report_ row).2,
             Interval.commission_code row)) <$> rows
    = [(4, "commission", Some 1, "C-1"); (1, "machine", Some 1, "C-1")].
Proof. eexists. split; vm_compute; reflexivity. Qed.

(** What a call returns: its date arguments are empty strings or dates, and
    its rows are those of the join that pass the work filter and the
    operator filter, unless the sentinel 0 is given, and are dated within
    the dates given. *)
Lemma get_reports_in_interval_spec db start_date end_date work_id operator_id
    rows :
  get_reports_in_interval db start_date end_date work_id operator_id = Ok rows →
  date_arg_ok start_date ∧ date_arg_ok end_date ∧
  ∀ row, row ∈ rows ↔
    ∃ j, j ∈ get_reports_in_interval_joined db ∧ row = Interval.select j ∧
      (work_id ≠ Some 0 → Report.work_id (Interval.j_report j).2 = work_id) ∧
      (operator_id ≠ Some 0 →
       Some (Report.operator_id (Interval.j_report j).2) = operator_id) ∧
      (∀ s, strptime start_date = Ok s → datetime_le s (report_date j)) ∧
      (∀ e, strptime end_date = Ok e → datetime_le (report_date j) e).
Proof.
  assert (∀ j : Interval.Joined,
    j ∈ (if decide (operator_id ≠ Some 0)
         then filter (λ j, column_eq
                       (Some (Report.operator_id (Interval.j_report j).2))
                       operator_id)
                (if decide (work_id ≠ Some 0)
                 then filter (λ j, column_eq
                               (Report.work_id (Interval.j_report j).2) work_id)
                        (get_reports_in_interval_joined db)
                 else get_reports_in_interval_joined db)
         else (if decide (work_id ≠ Some 0)
               then filter (λ j, column_eq
                             (Report.work_id (Interval.j_report j).2) work_id)
                      (get_reports_in_interval_joined db)
               else get_reports_in_interval_joined db)) ↔
    j ∈ get_reports_in_interval_joined db ∧
    (work_id ≠ Some 0 → Report.work_id (Interval.j_report j).2 = work_id) ∧
    (operator_id ≠ Some 0 →
     Some (Report.operator_id (Interval.j_report j).2) = operator_id)) as Hbase.
  { intros j. unfold column_eq. repeat case_decide;
      rewrite ?list_elem_of_filter; tauto. }
  unfold get_reports_in_interval. cbv zeta.
  revert Hbase. generalize (if decide (operator_id ≠ Some 0)
         then filter (λ j, column_eq
                       (Some (Report.operator_id (Interval.j_report j).2))
                       operator_id)
                (if decide (work_id ≠ Some 0)
                 then filter (λ j, column_eq
                               (Report.work_id (Interval.j_report j).2) work_id)
                        (get_reports_in_interval_joined db)
                 else get_reports_in_interval_joined db)
         else (if decide (work_id ≠ Some 0)
               then filter (λ j, column_eq
                             (Report.work_id (Interval.j_report j).2) work_id)
                      (get_reports_in_interval_joined db)
               else get_reports_in_interval_joined db)).
  intros l Hbase. unfold mbind, mret, result_mbind, result_mret.
  assert (∀ (P : datetime → Prop) x, strptime (Some "") = Ok x → P x) as Hempty.
  { intros P x Hx. by rewrite strptime_empty in Hx. }
  destruct (decide (start_date ≠ Some "")) as [Hs|Hs];
    destruct (decide (end_date ≠ Some "")) as [He|He].
  - rewrite decide_True by done.
    destruct (strptime start_date) as [s|] eqn:Es; [|done].
    destruct (strptime end_date) as [e|] eqn:Ee; [|done].
    simpl. intros [= <-]. split; [right; by eexists|].
    split; [right; by eexists|]. intros row.
    rewrite list_elem_of_fmap. setoid_rewrite list_elem_of_filter.
    setoid_rewrite Hbase. split.
    + intros (j & -> & [H1 H2] & Hj & Hw & Hop). exists j.
      do 4 (split; [done|]). split; intros x [= <-]; done.
    + intros (j & Hj & -> & Hw & Hop & H1 & H2). exists j.
      split; [done|]. split; [split; auto|]. done.
  - apply dec_stable in He. subst end_date.
    rewrite decide_False by tauto. cbv iota beta.
    destruct (strptime start_date) as [s|] eqn:Es; [|done].
    simpl. intros [= <-]. split; [right; by eexists|].
    split; [by left|]. intros row.
    rewrite list_elem_of_fmap. setoid_rewrite list_elem_of_filter.
    setoid_rewrite Hbase. split.
    + intros (j & -> & H1 & Hj & Hw & Hop). exists j.
      do 4 (split; [done|]). split; [by intros x [= <-]|].
      intros x Hx. by apply (Hempty (λ x, datetime_le (report_date j) x)).
    + intros (j & Hj & -> & Hw & Hop & H1 & H2). exists j.
      split; [done|]. split; [auto|]. done.
  - apply dec_stable in Hs. subst start_date.
    rewrite decide_False by tauto. cbv iota beta.
    destruct (strptime end_date) as [e|] eqn:Ee; [|done].
    simpl. intros [= <-]. split; [by left|].
    split; [right; by eexists|]. intros row.
    rewrite list_elem_of_fmap. setoid_rewrite list_elem_of_filter.
    setoid_rewrite Hbase. split.
    + intros (j & -> & H1 & Hj & Hw & Hop). exists j.
      do 4 (split; [done|]). split; [|by intros x [= <-]].
      intros x Hx. by apply (Hempty (λ x, datetime_le x (report_date j))).
    + intros (j & Hj & -> & Hw & Hop & H1 & H2). exists j.
      split; [done|]. split; [auto|]. done.
  - apply dec_stable in Hs, He. subst start_date end_date.
    rewrite decide_False by tauto. cbv iota beta.
    simpl. intros [= <-]. split; [by left|]. split; [by left|]. intros row.
    rewrite list_elem_of_fmap. setoid_rewrite Hbase. split.
    + intros (j & -> & Hj & Hw & Hop). exists j.
      do 4 (split; [done|]). split; intros x Hx.
      * by apply (Hempty (λ x, datetime_le x (report_date j))).
      * by apply (Hempty (λ x, datetime_le (report_date j) x)).
    + intros (j & Hj & -> & Hw & Hop & _). by exists j.
Qed.

(** How the rows under one filter sit among the rows without it. *)
Lemma get_reports_in_interval_narrow db sd ed w op sd0 ed0 w0 op0 rows0
    (P : Interval.Row → Prop) :
  get_reports_in_interval db sd0 ed0 w0 op0 = Ok rows0 →
  date_arg_ok sd → date_arg_ok ed →
  (∀ j, j ∈ get_reports_in_interval_joined db →
     ((w ≠ Some 0 → Report.work_id (Interval.j_report j).2 = w) ∧
      (op ≠ Some 0 → Some (Report.operator_id (Interval.j_report j).2) = op) ∧
      (∀ s, strptime sd = Ok s → datetime_le s (report_date j)) ∧
      (∀ e, strptime ed = Ok e → datetime_le (report_date j) e)) ↔
     ((w0 ≠ Some 0 → Report.work_id (Interval.j_report j).2 = w0) ∧
      (op0 ≠ Some 0 →
       Some (Report.operator_id (Interval.j_report j).2) = op0) ∧
      (∀ s, strptime sd0 = Ok s → datetime_le s (report_date j)) ∧
      (∀ e, strptime ed0 = Ok e → datetime_le (report_date j) e)) ∧
     P (Interval.select j)) →
  ∃ rows,
    get_reports_in_interval db sd ed w op = Ok rows ∧
    ∀ row, row ∈ rows ↔ row ∈ rows0 ∧ P row.
Proof.
  intros H0 Hsd Hed Hiff.
  destruct (get_reports_in_interval_returns db sd ed w op Hsd Hed)
    as [rows Hrows].
  exists rows. split; [done|]. intros row.
  apply get_reports_in_interval_spec in H0 as (_ & _ & H0).
  apply get_reports_in_interval_spec in Hrows as (_ & _ & Hrows).
  rewrite Hrows, H0. split.
  - intros (j & Hj & -> & Hc). apply (Hiff j Hj) in Hc as [Hc HP].
    split; [|done]. exists j. tauto.
  - intros [(j & Hj & -> & Hc) HP]. exists j. split; [done|].
    split; [done|]. apply (Hiff j Hj). tauto.
Qed.

(** C8: the arguments of [get_reports_in_interval] left at [None], and what
    switches its filters off.  With [work_id] [None] the call never returns
    a row, and returns the empty list when the dates are empty strings or
    dates; with [start_date] [None] it raises [TypeError]; with [end_date]
    [None] it raises [TypeError] when [start_date] is [None], the empty
    string or a date.  With 0, 0 and two empty strings nothing is filtered;
    every other [work_id] and [operator_id] is compared with its column,
    and every start or end date bounds the dates of the rows: the rows are
    those returned with 0, or with the empty string, in its place that
    pass the test; a call that returns with a date argument other than the
    empty string has read it as a date and kept the rows within it. *)
Theorem get_reports_in_interval_none db :
  (∀ start_date end_date operator_id rows,
     get_reports_in_interval db start_date end_date None operator_id = Ok rows →
     rows = []) ∧
  (∀ start_date end_date operator_id,
     date_arg_ok start_date → date_arg_ok end_date →
     get_reports_in_interval db start_date end_date None operator_id = Ok []) ∧
  (∀ end_date work_id operator_id,
     get_reports_in_interval db None end_date work_id operator_id
     = Raise TypeError) ∧
  (∀ start_date work_id operator_id,
     start_date = None ∨ date_arg_ok start_date →
     get_reports_in_interval db start_date None work_id operator_id
     = Raise TypeError) ∧
  get_reports_in_interval db (Some "") (Some "") (Some 0) (Some 0)
  = Ok (Interval.select <$> get_reports_in_interval_joined db) ∧
  (∀ start_date end_date work_id operator_id rows0,
     work_id ≠ Some 0 →
     get_reports_in_interval db start_date end_date (Some 0) operator_id
     = Ok rows0 →
     ∃ rows,
       get_reports_in_interval db start_date end_date work_id operator_id
       = Ok rows ∧
       ∀ row, row ∈ rows ↔
         row ∈ rows0 ∧ Report.work_id (Interval.Report_ row).2 = work_id) ∧
  (∀ start_date end_date work_id operator_id rows0,
     operator_id ≠ Some 0 →
     get_reports_in_interval db start_date end_date work_id (Some 0)
     = Ok rows0 →
     ∃ rows,
       get_reports_in_interval db start_date end_date work_id operator_id
       = Ok rows ∧
       ∀ row, row ∈ rows ↔
         row ∈ rows0 ∧
         Some (Report.operator_id (Interval.Report_ row).2) = operator_id) ∧
  (∀ start_date end_date work_id operator_id s rows0,
     strptime start_date = Ok s →
     get_reports_in_interval db (Some "") end_date work_id operator_id
     = Ok rows0 →
     ∃ rows,
       get_reports_in_interval db start_date end_date work_id operator_id
       = Ok rows ∧
       ∀ row, row ∈ rows ↔
         row ∈ rows0 ∧
         datetime_le s (Report.date (Interval.Report_ row).2)) ∧
  (∀ start_date end_date work_id operator_id e rows0,
     strptime end_date = Ok e →
     get_reports_in_interval db start_date (Some "") work_id operator_id
     = Ok rows0 →
     ∃ rows,
       get_reports_in_interval db start_date end_date work_id operator_id
       = Ok rows ∧
       ∀ row, row ∈ rows ↔
         row ∈ rows0 ∧
         datetime_le (Report.date (Interval.Report_ row).2) e) ∧
  (∀ start_date end_date work_id operator_id rows,
     get_reports_in_interval db start_date end_date work_id operator_id
     = Ok rows →
     (work_id ≠ Some 0 →
      ∀ row, row ∈ rows →
             Report.work_id (Interval.Report_ row).2 = work_id) ∧
     (operator_id ≠ Some 0 →
      ∀ row, row ∈ rows →
             Some (Report.operator_id (Interval.Report_ row).2)
             = operator_id) ∧
     (start_date ≠ Some "" →
      ∃ s, strptime start_date = Ok s ∧
           ∀ row, row ∈ rows →
                  datetime_le s (Report.date (Interval.Report_ row).2)) ∧
     (end_date ≠ Some "" →
      ∃ e, strptime end_date = Ok e ∧
           ∀ row, row ∈ rows →
                  datetime_le (Report.date (Interval.Report_ row).2) e)).
Proof.
  assert (∀ start_date end_date operator_id rows,
     get_reports_in_interval db start_date end_date None operator_id = Ok rows →
     rows = []) as Hnone.
  { intros sd ed op [|row rows] Hres; [done|]. exfalso.
    destruct (get_reports_in_interval_rows _ _ _ _ _ _ row Hres)
      as (j & _ & Hj & Hw); [left|].
    apply elem_of_get_reports_in_interval_joined in Hj as [c Hc].
    rewrite Hw in Hc; done. }
  assert (∀ (P : datetime → Prop) x, strptime (Some "") = Ok x → P x) as Hempty.
  { intros P x Hx. by rewrite strptime_empty in Hx. }
  split; [exact Hnone|]. split.
  { intros sd ed op Hsd Hed.
    destruct (get_reports_in_interval_returns db sd ed None op Hsd Hed)
      as [rows Hrows].
    by rewrite Hrows, (Hnone _ _ _ _ Hrows). }
  split.
  { intros ed w op. interval_cases; try done; tauto. }
  split.
  { intros sd w op [->|[->|[d Hd]]]; interval_cases; rewrite ?Hd;
      try done; try tauto.
    all: try (rewrite strptime_empty in Hd; discriminate).
    all: match goal with H : ¬ (_ ∧ _) |- _ => exfalso; apply H end.
    all: split; [intros ->; rewrite strptime_empty in Hd|]; done. }
  split; [apply get_reports_in_interval_unfiltered|].
  split.
  { intros sd ed w op rows0 Hw H0.
    destruct (get_reports_in_interval_spec _ _ _ _ _ _ H0) as (Hsd & Hed & _).
    apply (get_reports_in_interval_narrow db sd ed w op _ _ _ _ rows0
             (λ row, Report.work_id (Interval.Report_ row).2 = w) H0 Hsd Hed).
    intros j Hj. simpl. split; [|tauto].
    intros (H1 & H2 & H3 & H4). repeat split; auto. by intros []. }
  split.
  { intros sd ed w op rows0 Hop H0.
    destruct (get_reports_in_interval_spec _ _ _ _ _ _ H0) as (Hsd & Hed & _).
    apply (get_reports_in_interval_narrow db sd ed w op _ _ _ _ rows0
             (λ row, Some (Report.operator_id (Interval.Report_ row).2) = op)
             H0 Hsd Hed).
    intros j Hj. simpl. split; [|tauto].
    intros (H1 & H2 & H3 & H4). repeat split; auto. by intros []. }
  split.
  { intros sd ed w op s rows0 Hs H0.
    destruct (get_reports_in_interval_spec _ _ _ _ _ _ H0) as (_ & Hed & _).
    apply (get_reports_in_interval_narrow db sd ed w op _ _ _ _ rows0
             (λ row, datetime_le s (Report.date (Interval.Report_ row).2))
             H0 ltac:(right; by eexists) Hed).
    intros j Hj. simpl. split.
    - intros (H1 & H2 & H3 & H4). repeat split; auto.
      intros x Hx. by apply (Hempty (λ x, datetime_le x (report_date j))).
    - intros ((H1 & H2 & H3 & H4) & HP). repeat split; auto.
      intros x Hx. rewrite Hs in Hx. by injection Hx as <-. }
  split.
  { intros sd ed w op e rows0 He H0.
    destruct (get_reports_in_interval_spec _ _ _ _ _ _ H0) as (Hsd & _ & _).
    apply (get_reports_in_interval_narrow db sd ed w op _ _ _ _ rows0
             (λ row, datetime_le (Report.date (Interval.Report_ row).2) e)
             H0 Hsd ltac:(right; by eexists)).
    intros j Hj. simpl. split.
    - intros (H1 & H2 & H3 & H4). repeat split; auto.
      intros x Hx. by apply (Hempty (λ x, datetime_le (report_date j) x)).
    - intros ((H1 & H2 & H3 & H4) & HP). repeat split; auto.
      intros x Hx. rewrite He in Hx. by injection Hx as <-. }
  intros sd ed w op rows Hres.
  destruct (get_reports_in_interval_spec _ _ _ _ _ _ Hres)
    as (Hsd & Hed & Hrows).
  split.
  { intros Hne row (j & _ & -> & Hb & _)%Hrows. by apply Hb. }
  split.
  { intros Hne row (j & _ & -> & _ & Hb & _)%Hrows. by apply Hb. }
  split.
  - intros Hne. destruct Hsd as [->|[s Hs]]; [done|]. exists s.
    split; [done|]. intros row (j & _ & -> & _ & _ & Hb & _)%Hrows.
    by apply Hb.
  - intros Hne. destruct Hed as [->|[e He]]; [done|]. exists e.
    split; [done|]. intros row (j & _ & -> & _ & _ & _ & Hb)%Hrows.
    by apply Hb.
Qed.

Lemma get_reports_in_interval_none_witness :
  get_reports_in_interval Fixture.db (Some "") (Some "2024-12-31") None
    (Some 0) = Ok [] ∧
  get_reports_in_interval Fixture.db (Some "2024-01-01") None (Some 0)
    (Some 0) = Raise TypeError ∧
  (∃ rows,
     get_reports_in_interval Fixture.db (Some "2024-01-01") (Some "") (Some 0)
       (Some 0) = Ok rows ∧
     ∀ row, row ∈ rows ↔
       (row ∈ Interval.select <$> get_reports_in_interval_joined Fixture.db ∧
        datetime_le (Fixture.day 2024 1 1)
          (Report.date (Interval.Report_ row).2))) ∧
  (λ row, (Interval.Report_ row).1)
    <$> (Interval.select <$> get_reports_in_interval_joined Fixture.db)
  = [4; 1].
Proof.
  destruct (get_reports_in_interval_none Fixture.db)
    as (_ & Hempty & _ & Hend & Hall & _ & _ & Hstart & _ & _).
  split; [apply Hempty; [by left|right; eexists; vm_compute; reflexivity]|].
  split; [apply Hend; right; right; eexists; vm_compute; reflexivity|].
  split; [|vm_compute; reflexivity].
  apply (Hstart (Some "2024-01-01") (Some "") (Some 0) (Some 0)
           (Fixture.day 2024 1 1)); [vm_compute; reflexivity|exact Hall].
Defined.

(** With [end_date] [None] and a start date that is no date, the exception
    is the [ValueError] of the start date, not a [TypeError]. *)
Example get_reports_in_interval_bad_start :
  get_reports_in_interval Fixture.db (Some "2024-13-01") None (Some 0) (Some 0)
  = Raise ValueError ∧
  get_reports_in_interval Fixture.db (Some "2024-13-01") None (Some 0) (Some 0)
  ≠ Raise TypeError.
Proof. split; [vm_compute; reflexivity|vm_compute; discriminate]. Qed.

Example strftime_mY_examples :
  strftime_mY (Fixture.day 2024 1 3) = "01/2024" ∧
  strftime_mY (Fixture.day 999 12 3) = "12/999" ∧
  strftime_mY (Fixture.day 7 2 3) = "02/7".
Proof. repeat split; vm_compute; reflexivity. Qed.

Example strptime_examples :
  strptime (Some "2024-02-29") = Ok (Fixture.day 2024 2 29) ∧
  strptime (Some "2023-02-29") = Raise ValueError ∧
  strptime (Some "2024-1-5") = Ok (Fixture.day 2024 1 5) ∧
  strptime (Some "24-01-05") = Raise ValueError ∧
  strptime (Some "01/2024") = Raise ValueError ∧
  strptime None = Raise TypeError.
Proof. repeat split; vm_compute; reflexivity. Qed.

(** ** [get_months] *)

Lemma NoDup_sorted s : NoDup (sorted s).
Proof. unfold sorted. rewrite merge_sort_Permutation. apply NoDup_elements. Qed.

Lemma StronglySorted_sorted s : StronglySorted String.le (sorted s).
Proof. unfold sorted. apply StronglySorted_merge_sort; apply _. Qed.

Lemma elem_of_sorted_set s l : s ∈ sorted (set l) ↔ s ∈ l.
Proof.
  unfold sorted, set. rewrite merge_sort_Permutation, elem_of_elements.
  apply elem_of_list_to_set.
Qed.

(** C5: the result of [get_months] holds no string twice and ascends in the
    order of strings; on the fixture, whose reports fall in February 2023
    and January 2024, the later month comes first. *)
Theorem get_months_sorted_unique :
  (∀ db user_id work_id,
     NoDup (get_months db user_id work_id) ∧
     StronglySorted String.le (get_months db user_id work_id)) ∧
  get_months Fixture.db None None = ["01/2024"; "02/2023"] ∧
  String.le "01/2024" "02/2023" ∧
  datetime_compare (Fixture.day 2023 2 6) (Fixture.day 2024 1 3) = Lt.
Proof.
  split.
  - intros db user_id work_id. unfold get_months. cbv zeta.
    split; [apply NoDup_sorted|apply StronglySorted_sorted].
  - split; [vm_compute; reflexivity|]. split; [exact I|reflexivity].
Qed.

(** ** [get_months]: the work filter *)

Lemma elem_of_get_months db user_id work_id s :
  s ∈ get_months db user_id work_id ↔
  ∃ r : row Report.t,
    reports db !! r.1 = Some r.2 ∧
    (truthy user_id → user_id = Some (Report.operator_id r.2)) ∧
    (truthy work_id → Report.work_id r.2 = work_id) ∧
    strftime_mY (Report.date r.2) = s.
Proof.
  unfold get_months. cbv zeta. rewrite elem_of_sorted_set, list_elem_of_fmap.
  setoid_rewrite merge_sort_Permutation.
  setoid_rewrite elem_of_remove_dups.
  setoid_rewrite list_elem_of_fmap.
  assert (∀ a b : option Z, truthy b → sql_eq a b ↔ a = b) as Hsql.
  { intros [a|] [b|]; simpl; intros; split; intros; simplify_eq; done. }
  split.
  - intros (d & -> & r & -> & Hr). exists r.
    destruct (decide (truthy work_id)) as [Hw|Hw];
      [apply list_elem_of_filter in Hr as [Hrw Hr]|];
      (destruct (decide (truthy user_id)) as [Hu|Hu];
       [apply list_elem_of_filter in Hr as [Hru Hr]|]);
      apply elem_of_query in Hr; repeat split; try done;
      intros; try (by apply Hsql); symmetry; by apply Hsql.
  - intros (r & Hr & Hu & Hw & <-). eexists. split; [reflexivity|].
    exists r. split; [reflexivity|]. apply elem_of_query in Hr.
    destruct (decide (truthy work_id)) as [Hw'|Hw'];
      [apply list_elem_of_filter; split; [by apply Hsql, Hw|]|];
      (destruct (decide (truthy user_id)) as [Hu'|Hu'];
       [apply list_elem_of_filter; split;
        [apply Hsql; [done|symmetry; by apply Hu]|]|]); done.
Qed.

(** C9: with a work filter [w] (any integer but 0), a month is in the result
    of [get_months] exactly when some report that passes the operator filter
    has [work_id] [w] and falls in that month; the type of the report plays
    no part. *)
Theorem get_months_work_filter db user_id w s :
  w ≠ 0 →
  s ∈ get_months db user_id (Some w) ↔
  ∃ (id : Z) (r : Report.t),
    reports db !! id = Some r ∧
    (truthy user_id → user_id = Some (Report.operator_id r)) ∧
    Report.work_id r = Some w ∧
    strftime_mY (Report.date r) = s.
Proof.
  intros Hw. rewrite elem_of_get_months. split.
  - intros ([id r] & Hr & Hu & Hwk & Hs). exists id, r. simpl in *.
    repeat split; try done. by apply Hwk.
  - intros (id & r & Hr & Hu & Hwk & Hs). exists (id, r). done.
Qed.

Lemma get_months_work_filter_witness :
  Report.type <$> reports Fixture.db !! 1 = Some "machine" ∧
  is_Some (commissions Fixture.db !! 1) ∧
  "01/2024" ∈ get_months Fixture.db None (Some 1).
Proof.
  split; [reflexivity|]. split; [by eexists|].
  apply (get_months_work_filter Fixture.db None 1 "01/2024"); [discriminate|].
  exists 1, (Fixture.report "machine" (Some 1) 2 (Fixture.day 2024 1 3)).
  split; [reflexivity|]. split; [intros []|]. split; reflexivity.
Defined.

(** Filtering by 1, the id of a commission and of a machine, yields the month
    of the commission-typed report 4 and the month of the machine-typed
    report 1. *)
Example get_months_fixture_work_1 :
  get_months Fixture.db None (Some 1) = ["01/2024"; "02/2023"].
Proof. vm_compute. reflexivity. Qed.

(** ** [edit_report] and [create_report] *)

(** [filter(T.id == id).first()] is the lookup of the primary key. *)
Lemma first_filter_id {A} (t : gmap Z A) (id : Z) :
  first (filter (λ r : row A, r.1 = id) (query t)) = (λ v, (id, v)) <$> t !! id.
Proof.
  assert (∀ r, r ∈ filter (λ r : row A, r.1 = id) (query t) →
               t !! id = Some r.2 ∧ r.1 = id) as Hin.
  { intros r [Hid Hr]%list_elem_of_filter. apply elem_of_query in Hr.
    by rewrite <- Hid. }
  destruct (first _) as [r|] eqn:E.
  - apply first_elem_of, Hin in E as [E1 E2]. rewrite E1. simpl.
    destruct r; simpl in *. by subst.
  - destruct (t !! id) as [v|] eqn:Hv; [|done].
    destruct (first_is_Some (filter (λ r : row A, r.1 = id) (query t)) (id, v))
      as [r Hr]; [|congruence].
    apply list_elem_of_filter. split; [done|]. by apply elem_of_query.
Qed.

Lemma edit_report_existing db report_id report user_id old :
  reports db !! report_id = Some old →
  edit_report report_id report user_id db
  = (with_reports (insert report_id (overwrite old report user_id)) db,
     Ok (Edited (report_id, overwrite old report user_id))).
Proof.
  intros Hold.
  unfold edit_report, mbind, Session_mbind, session_bind, gets, commit.
  rewrite first_filter_id, Hold. reflexivity.
Qed.

Lemma edit_report_missing db report_id report user_id :
  reports db !! report_id = None →
  edit_report report_id report user_id db = (db, Ok (ErrorPair "Errore" 400)).
Proof.
  intros Hnone.
  unfold edit_report, mbind, Session_mbind, session_bind, gets.
  rewrite first_filter_id, Hnone. reflexivity.
Qed.

(** C6: editing an existing report stores the acting user as its operator,
    whoever the operator was. *)
Theorem edit_report_operator db report_id report user_id old :
  reports db !! report_id = Some old →
  ∃ db' r',
    edit_report report_id report user_id db
      = (db', Ok (Edited (report_id, r'))) ∧
    reports db' !! report_id = Some r' ∧
    Report.operator_id r' = user_id.
Proof.
  intros Hold. eexists _, _.
  split; [by apply edit_report_existing|].
  split; [apply lookup_insert_eq|reflexivity].
Qed.

Lemma edit_report_operator_witness :
  Report.operator_id <$> reports Fixture.db !! 1 = Some 2 ∧
  ∃ db' r',
    edit_report 1 (Fixture.edit) 3 Fixture.db
      = (db', Ok (Edited (1, r'))) ∧
    reports db' !! 1 = Some r' ∧
    Report.operator_id r' = 3.
Proof.
  split; [reflexivity|].
  apply (edit_report_operator Fixture.db 1 Fixture.edit 3
           (Fixture.report "machine" (Some 1) 2 (Fixture.day 2024 1 3))).
  reflexivity.
Defined.

(** C10: editing an existing report keeps it under its id with its creation
    timestamp; the other columns take the values of the request and the
    acting user, and no other row of any table changes. *)
Theorem edit_report_frame db report_id report user_id old :
  reports db !! report_id = Some old →
  ∃ db' r',
    edit_report report_id report user_id db
      = (db', Ok (Edited (report_id, r'))) ∧
    reports db' !! report_id = Some r' ∧
    Report.date_created r' = Report.date_created old ∧
    dom (reports db') = dom (reports db) ∧
    (∀ id, id ≠ report_id → reports db' !! id = reports db !! id) ∧
    (users db' = users db ∧ clients db' = clients db ∧
     plants db' = plants db ∧ machines db' = machines db ∧
     commissions db' = commissions db) ∧
    r' = {|
      Report.type := schemas.ReportCreate.type report;
      Report.date := schemas.ReportCreate.date report;
      Report.intervention_duration :=
        schemas.ReportCreate.intervention_duration report;
      Report.intervention_type :=
        schemas.ReportCreate.intervention_type report;
      Report.intervention_location :=
        schemas.ReportCreate.intervention_location report;
      Report.work_id := schemas.ReportCreate.work_id report;
      Report.supervisor := schemas.ReportCreate.supervisor report;
      Report.description := schemas.ReportCreate.description report;
      Report.notes := schemas.ReportCreate.notes report;
      Report.trip_kms := schemas.ReportCreate.trip_kms report;
      Report.cost := schemas.ReportCreate.cost report;
      Report.operator_id := user_id;
      Report.date_created := Report.date_created old
    |}.
Proof.
  intros Hold. eexists _, _.
  split; [by apply edit_report_existing|]. simpl.
  split; [apply lookup_insert_eq|]. split; [reflexivity|].
  split.
  { rewrite dom_insert_L. apply subseteq_union_1_L, singleton_subseteq_l.
    by apply elem_of_dom_2 in Hold. }
  split; [intros id Hid; by apply lookup_insert_ne|].
  done.
Qed.

Lemma edit_report_frame_witness :
  ∃ db' r',
    edit_report 4 Fixture.edit 3 Fixture.db = (db', Ok (Edited (4, r'))) ∧
    reports db' !! 4 = Some r' ∧
    Report.date_created r' = Fixture.day 2023 12 31 ∧
    reports db' !! 1 = reports Fixture.db !! 1.
Proof.
  destruct (edit_report_frame Fixture.db 4 Fixture.edit 3
              (Fixture.report "commission" (Some 1) 2 (Fixture.day 2023 2 6)))
    as (db' & r' & He & Hr & Hc & _ & Hother & _); [reflexivity|].
  exists db', r'. repeat split; [exact He|exact Hr|exact Hc|].
  apply Hother. discriminate.
Defined.

Lemma foldr_max_ge (l : list Z) k : k ∈ l → k ≤ foldr Z.max 0 l.
Proof.
  induction l as [|x l IH]; [by intros ?%not_elem_of_nil|].
  intros [->|Hk]%elem_of_cons; simpl; [lia|].
  specialize (IH Hk). lia.
Qed.

(** The key of a new row is in use by no row. *)
Lemma next_id_fresh {A} (t : gmap Z A) : t !! next_id t = None.
Proof.
  destruct (t !! next_id t) as [v|] eqn:Hv; [|done].
  assert (next_id t ∈ (fst <$> map_to_list t : list Z)) as Hin.
  { apply list_elem_of_fmap. exists (next_id t, v).
    split; [done|]. by apply elem_of_map_to_list. }
  apply foldr_max_ge in Hin. unfold next_id in Hin at 1. lia.
Qed.

(** C7: [create_report] adds one row under a new id; its [trip_kms] and its
    [cost] are ["0.0"] where the request has the empty string and the value
    of the request otherwise. *)
Theorem create_report_normalizes now report user_id db :
  ∃ id r,
    create_report now report user_id db
      = (with_reports (insert id r) db, Ok (id, r)) ∧
    reports db !! id = None ∧
    (schemas.ReportCreate.trip_kms report = "" → Report.trip_kms r = "0.0") ∧
    (schemas.ReportCreate.cost report = "" → Report.cost r = "0.0") ∧
    (schemas.ReportCreate.trip_kms report ≠ "" →
     Report.trip_kms r = schemas.ReportCreate.trip_kms report) ∧
    (schemas.ReportCreate.cost report ≠ "" →
     Report.cost r = schemas.ReportCreate.cost report).
Proof.
  eexists _, _. split; [reflexivity|].
  split; [apply next_id_fresh|]. simpl.
  repeat split; intros H; case_decide; done.
Qed.

Lemma create_report_normalizes_witness :
  ∃ id r,
    create_report (Fixture.day 2024 3 1) Fixture.blank 2 Fixture.db
      = (with_reports (insert id r) Fixture.db, Ok (id, r)) ∧
    Report.trip_kms r = "0.0" ∧ Report.cost r = "0.0".
Proof.
  destruct (create_report_normalizes (Fixture.day 2024 3 1) Fixture.blank 2
              Fixture.db) as (id & r & He & _ & Ht & Hc & _).
  exists id, r. split; [exact He|].
  split; [apply Ht|apply Hc]; reflexivity.
Defined.

(** ** Deletion of referenced entities *)

(** A client referenced by a commission is not deleted. *)
Lemma delete_client_referenced db client_id client c :
  clients db !! client_id = Some client →
  c ∈ query (commissions db) → Commission.client_id c.2 = client_id →
  ∃ detail, delete_client client_id db = (db, Raise (HTTPException 400 detail)).
Proof.
  intros Hcl Hc Href. unfold delete_client, mbind, Session_mbind, session_bind, gets, get.
  rewrite Hcl.
  destruct (first_is_Some
    (filter (λ c : row Commission.t, Commission.client_id c.2 = client_id)
       (query (commissions db))) c) as [x ->].
  { by apply list_elem_of_filter. }
  by eexists.
Qed.

(** A plant referenced by a machine is not deleted. *)
Lemma delete_plant_referenced db plant_id plant m :
  plants db !! plant_id = Some plant →
  m ∈ query (machines db) → Machine.plant_id m.2 = plant_id →
  ∃ detail, delete_plant plant_id db = (db, Raise (HTTPException 400 detail)).
Proof.
  intros Hpl Hm Href. unfold delete_plant, mbind, Session_mbind, session_bind, gets, get.
  rewrite Hpl.
  destruct (first_is_Some
    (filter (λ m : row Machine.t, Machine.plant_id m.2 = plant_id)
       (query (machines db))) m) as [x ->].
  { by apply list_elem_of_filter. }
  by eexists.
Qed.

(** A commission referenced by a commission-typed report is not deleted. *)
Lemma delete_commission_referenced db commission_id commission r :
  commissions db !! commission_id = Some commission →
  r ∈ query (reports db) → Report.type r.2 = "commission" →
  Report.work_id r.2 = Some commission_id →
  ∃ detail,
    delete_commission commission_id db = (db, Raise (HTTPException 400 detail)).
Proof.
  intros Hco Hr Hty Href.
  unfold delete_commission, mbind, Session_mbind, session_bind, gets, get.
  rewrite Hco.
  destruct (first_is_Some
    (filter (λ r : row Report.t, Report.type r.2 = "commission")
       (filter (λ r : row Report.t,
                  sql_eq (Report.work_id r.2) (Some commission_id))
          (query (reports db)))) r) as [x ->].
  { apply list_elem_of_filter. split; [done|].
    apply list_elem_of_filter. split; [|done]. by rewrite Href. }
  by eexists.
Qed.

(** A machine referenced by a machine-typed report is not deleted. *)
Lemma delete_machine_referenced db machine_id machine r :
  machines db !! machine_id = Some machine →
  r ∈ query (reports db) → Report.type r.2 = "machine" →
  Report.work_id r.2 = Some machine_id →
  ∃ detail,
    delete_machine machine_id db = (db, Raise (HTTPException 400 detail)).
Proof.
  intros Hma Hr Hty Href.
  unfold delete_machine, mbind, Session_mbind, session_bind, gets, get.
  rewrite Hma.
  destruct (first_is_Some
    (filter (λ r : row Report.t, Report.type r.2 = "machine")
       (filter (λ r : row Report.t,
                  sql_eq (Report.work_id r.2) (Some machine_id))
          (query (reports db)))) r) as [x ->].
  { apply list_elem_of_filter. split; [done|].
    apply list_elem_of_filter. split; [|done]. by rewrite Href. }
  by eexists.
Qed.

(** The probe of [delete_client] reads the commissions only: a client that
    no commission references is deleted, whatever the plants say. *)
Lemma delete_client_unprobed db client_id client :
  clients db !! client_id = Some client →
  (∀ c, c ∈ query (commissions db) → Commission.client_id c.2 ≠ client_id) →
  delete_client client_id db
  = (with_clients (delete client_id) db, Ok "Cliente eliminato").
Proof.
  intros Hcl Hno. unfold delete_client, mbind, Session_mbind, session_bind, gets, get.
  rewrite Hcl.
  destruct (first _) as [c|] eqn:E; [|done].
  apply first_elem_of, list_elem_of_filter in E as [E Hc].
  by destruct (Hno c Hc).
Qed.

(** C3: the client of [Fixture2.db] is referenced by plant 1, and
    [delete_client] deletes it: the call succeeds and leaves the plant with
    a [client_id] that names no client. *)
Theorem delete_client_referenced_by_plant :
  clients Fixture2.db !! 1 = Some {| Client.name := "Acme" |} ∧
  Plant.client_id <$> plants Fixture2.db !! 1 = Some 1 ∧
  ∃ db',
    delete_client 1 Fixture2.db = (db', Ok "Cliente eliminato") ∧
    clients db' !! 1 = None ∧
    Plant.client_id <$> plants db' !! 1 = Some 1.
Proof.
  split; [reflexivity|]. split; [reflexivity|].
  eexists. split; [vm_compute; reflexivity|].
  split; vm_compute; reflexivity.
Qed.

(** ** [delete_user] *)

(** C4: when the target id is 1, or is the acting user's id, or the target
    row holds the role [admin], [delete_user] raises the 403 exception and
    the store is the one it found; in the first two cases the target row
    need not exist. *)
Theorem delete_user_forbidden db user_id current_user_id :
  user_id = 1 ∨ user_id = current_user_id ∨
  (∃ u, users db !! user_id = Some u ∧ User.role u = "admin") →
  ∃ e, delete_user user_id current_user_id db = (db, Raise e) ∧ Forbidden e.
Proof.
  intros H. exists (HTTPException 403 "Non puoi eliminare questo utente").
  split; [|done].
  unfold delete_user, mbind, Session_mbind, session_bind, gets, get. simpl.
  destruct (decide (user_id = 1)) as [|H1]; [done|].
  destruct (decide (user_id = current_user_id)) as [|H2]; [done|].
  destruct H as [?|[?|(u & Hu & Hrole)]]; [done..|].
  rewrite Hu. simpl. rewrite bool_decide_eq_true_2 by done. done.
Qed.

Lemma delete_user_forbidden_witness :
  ∃ e, delete_user 3 2 Fixture.db = (Fixture.db, Raise e) ∧ Forbidden e.
Proof.
  apply (delete_user_forbidden Fixture.db 3 2).
  right. right. eexists. split; [vm_compute; reflexivity|reflexivity].
Defined.

(** The protected id and the acting user are refused although no row has
    the id. *)
Example delete_user_absent_protected :
  users Fixture.db !! 9 = None ∧
  delete_user 9 9 Fixture.db
  = (Fixture.db, Raise (HTTPException 403 "Non puoi eliminare questo utente")).
Proof. split; vm_compute; reflexivity. Qed.

(** A target that is neither protected nor the acting user and has no row:
    [user.role] is read on [None]. *)
Lemma delete_user_absent db user_id current_user_id :
  user_id ≠ 1 → user_id ≠ current_user_id → users db !! user_id = None →
  delete_user user_id current_user_id db = (db, Raise AttributeError).
Proof.
  intros H1 H2 Hu.
  unfold delete_user, mbind, Session_mbind, session_bind, gets, get. simpl.
  rewrite Hu. destruct (decide (user_id = 1)); [done|].
  destruct (decide (user_id = current_user_id)); done.
Qed.

(** * Further properties of the module *)

(** ** Outcomes of the deletions *)

Ltac session :=
  unfold mbind, mret, Session_mbind, Session_mret, session_bind, session_ret,
    gets, commit, raise, get.

Lemma first_None {A} (l : list A) : first l = None ↔ l = [].
Proof. destruct l; split; done. Qed.

Lemma filter_nil_iff {A} (P : A → Prop) `{∀ x, Decision (P x)} (l : list A) :
  filter P l = [] ↔ ∀ x, x ∈ l → ¬ P x.
Proof.
  split.
  - intros Hnil x Hx HP.
    assert (x ∈ filter P l) as Hin by (apply list_elem_of_filter; done).
    rewrite Hnil in Hin. by apply not_elem_of_nil in Hin.
  - intros Hno. destruct (filter P l) as [|x l'] eqn:E; [done|].
    assert (x ∈ filter P l) as Hin by (rewrite E; left).
    apply list_elem_of_filter in Hin as [HP Hx]. by destruct (Hno x Hx).
Qed.

(** The probes of [delete_commission] and [delete_machine]. *)
Lemma report_probe_nil db (type : string) (id : Z) :
  filter (λ r : row Report.t, Report.type r.2 = type)
    (filter (λ r : row Report.t, sql_eq (Report.work_id r.2) (Some id))
       (query (reports db))) = [] ↔
  ¬ ∃ rid r, reports db !! rid = Some r ∧ Report.type r = type ∧
             Report.work_id r = Some id.
Proof.
  rewrite filter_nil_iff. split.
  - intros Hno (rid & r & Hr & Hty & Hw). apply (Hno (rid, r)); [|done].
    apply list_elem_of_filter. simpl. split; [by rewrite Hw|by apply elem_of_query].
  - intros Hno [rid r] [Hw Hr]%list_elem_of_filter Hty. apply Hno.
    exists rid, r. apply elem_of_query in Hr. simpl in *.
    destruct (Report.work_id r) as [w|]; [|done]. simpl in Hw. by subst.
Qed.

(** X1: [delete_plant]: a missing plant is not found; a plant with machines is
    refused and the store kept; otherwise the plant row, and nothing else,
    is removed.  The machines that refuse the deletion are those
    [get_machine_by_plant] lists. *)
Theorem delete_plant_outcome db plant_id :
  (plants db !! plant_id = None →
   ∃ e, delete_plant plant_id db = (db, Raise e) ∧ NotFound e) ∧
  (is_Some (plants db !! plant_id) → get_machine_by_plant db plant_id ≠ [] →
   ∃ e, delete_plant plant_id db = (db, Raise e) ∧ Conflict e) ∧
  (is_Some (plants db !! plant_id) → get_machine_by_plant db plant_id = [] →
   delete_plant plant_id db
   = (with_plants (delete plant_id) db, Ok "Plant deleted")).
Proof.
  unfold delete_plant, get_machine_by_plant. session.
  destruct (plants db !! plant_id) as [p|] eqn:Hp.
  - split; [done|]. split; intros _ Hm.
    + destruct (filter _ _) as [|m l]; [done|]. simpl. by eexists.
    + by rewrite Hm.
  - split; [by eexists|]. split; by intros [? ?].
Qed.

Lemma delete_plant_outcome_witness :
  (∃ e, delete_plant 9 Fixture3.db = (Fixture3.db, Raise e) ∧ NotFound e) ∧
  (∃ e, delete_plant 1 Fixture3.db = (Fixture3.db, Raise e) ∧ Conflict e) ∧
  delete_plant 2 Fixture3.db
  = (with_plants (delete 2) Fixture3.db, Ok "Plant deleted").
Proof.
  destruct (delete_plant_outcome Fixture3.db 9) as (H9 & _).
  destruct (delete_plant_outcome Fixture3.db 1) as (_ & H1 & _).
  destruct (delete_plant_outcome Fixture3.db 2) as (_ & _ & H2).
  split; [apply H9; reflexivity|].
  split; [apply H1; [by eexists|vm_compute; discriminate]|].
  apply H2; [by eexists|vm_compute; reflexivity].
Defined.

(** X2: [delete_client]: a missing client is not found, also when commissions
    name its id; a client some commission names is refused; a client no
    commission names is removed. *)
Theorem delete_client_outcome db client_id :
  (clients db !! client_id = None →
   ∃ e, delete_client client_id db = (db, Raise e) ∧ NotFound e) ∧
  (is_Some (clients db !! client_id) →
   (∃ id c, commissions db !! id = Some c ∧
            Commission.client_id c = client_id) →
   ∃ e, delete_client client_id db = (db, Raise e) ∧ Conflict e) ∧
  (is_Some (clients db !! client_id) →
   (¬ ∃ id c, commissions db !! id = Some c ∧
              Commission.client_id c = client_id) →
   delete_client client_id db
   = (with_clients (delete client_id) db, Ok "Cliente eliminato")).
Proof.
  split; [|split].
  - intros Hc. unfold delete_client. session. rewrite Hc. by eexists.
  - intros [k Hk] (id & c & Hc & Href).
    destruct (delete_client_referenced db client_id k (id, c))
      as [detail ->]; [done|by apply elem_of_query|done|]. by eexists.
  - intros [k Hk] Hno. apply (delete_client_unprobed db client_id k Hk).
    intros [id c] Hc%elem_of_query Href. apply Hno. by exists id, c.
Qed.

Lemma delete_client_outcome_witness :
  (∃ e, delete_client 2 Fixture3.db = (Fixture3.db, Raise e) ∧ Conflict e) ∧
  delete_client 3 Fixture3.db
  = (with_clients (delete 3) Fixture3.db, Ok "Cliente eliminato").
Proof.
  destruct (delete_client_outcome Fixture3.db 2) as (_ & H2 & _).
  destruct (delete_client_outcome Fixture3.db 3) as (_ & _ & H3).
  split.
  - apply H2; [by eexists|]. exists 2, (Fixture.commission "C-2" 2). done.
  - apply H3; [by eexists|]. intros (id & c & Hc & Href).
    assert ((id, c) ∈ query (commissions Fixture3.db)) as Hin
      by (by apply elem_of_query).
    vm_compute in Hin.
    repeat (apply elem_of_cons in Hin as [Hin|Hin]; [by simplify_eq|]).
    by apply not_elem_of_nil in Hin.
Defined.

(** X3: [delete_commission]: a missing commission is not found, also when
    reports name its id; a commission named by a commission-typed report is
    refused; otherwise it is removed, machine-typed reports with the same
    [work_id] notwithstanding. *)
Theorem delete_commission_outcome db commission_id :
  (commissions db !! commission_id = None →
   ∃ e, delete_commission commission_id db = (db, Raise e) ∧ NotFound e) ∧
  (is_Some (commissions db !! commission_id) →
   commission_reported db commission_id →
   ∃ e, delete_commission commission_id db = (db, Raise e) ∧ Conflict e) ∧
  (is_Some (commissions db !! commission_id) →
   ¬ commission_reported db commission_id →
   delete_commission commission_id db
   = (with_commissions (delete commission_id) db, Ok "Commessa eliminata")).
Proof.
  split; [|split].
  - intros Hc. unfold delete_commission. session. rewrite Hc. by eexists.
  - intros [c Hc] (rid & r & Hr & Hty & Hw).
    destruct (delete_commission_referenced db commission_id c (rid, r))
      as [detail ->]; [done|by apply elem_of_query|done..|]. by eexists.
  - intros [c Hc] Hno. apply report_probe_nil in Hno.
    unfold delete_commission. session. by rewrite Hc, Hno.
Qed.

Lemma delete_commission_outcome_witness :
  (∃ e, delete_commission 1 Fixture3.db = (Fixture3.db, Raise e) ∧ Conflict e) ∧
  delete_commission 3 Fixture3.db
  = (with_commissions (delete 3) Fixture3.db, Ok "Commessa eliminata").
Proof.
  destruct (delete_commission_outcome Fixture3.db 1) as (_ & H1 & _).
  destruct (delete_commission_outcome Fixture3.db 3) as (_ & _ & H3).
  split.
  - apply H1; [by eexists|].
    exists 2, (Fixture.report "commission" (Some 1) 4 (Fixture.day 2024 1 20)).
    done.
  - apply H3; [by eexists|]. apply report_probe_nil. vm_compute. reflexivity.
Defined.

(** X4: [delete_machine]: as [delete_commission], with machine-typed reports. *)
Theorem delete_machine_outcome db machine_id :
  (machines db !! machine_id = None →
   ∃ e, delete_machine machine_id db = (db, Raise e) ∧ NotFound e) ∧
  (is_Some (machines db !! machine_id) → machine_reported db machine_id →
   ∃ e, delete_machine machine_id db = (db, Raise e) ∧ Conflict e) ∧
  (is_Some (machines db !! machine_id) → ¬ machine_reported db machine_id →
   delete_machine machine_id db
   = (with_machines (delete machine_id) db, Ok "Macchina eliminata")).
Proof.
  split; [|split].
  - intros Hm. unfold delete_machine. session. rewrite Hm. by eexists.
  - intros [m Hm] (rid & r & Hr & Hty & Hw).
    destruct (delete_machine_referenced db machine_id m (rid, r))
      as [detail ->]; [done|by apply elem_of_query|done..|]. by eexists.
  - intros [m Hm] Hno. apply report_probe_nil in Hno.
    unfold delete_machine. session. by rewrite Hm, Hno.
Qed.

Lemma delete_machine_outcome_witness :
  (∃ e, delete_machine 1 Fixture3.db = (Fixture3.db, Raise e) ∧ Conflict e) ∧
  delete_machine 2 Fixture3.db
  = (with_machines (delete 2) Fixture3.db, Ok "Macchina eliminata").
Proof.
  destruct (delete_machine_outcome Fixture3.db 1) as (_ & H1 & _).
  destruct (delete_machine_outcome Fixture3.db 2) as (_ & _ & H2).
  split.
  - apply H1; [by eexists|].
    exists 1, (Fixture.report "machine" (Some 1) 2 (Fixture.day 2024 1 3)).
    done.
  - apply H2; [by eexists|]. apply report_probe_nil. vm_compute. reflexivity.
Defined.

(** X5: [delete_report]: a missing report is not found; the report of another
    operator is refused with the 403 exception and kept; the operator's own
    report is removed. *)
Theorem delete_report_outcome db report_id user_id :
  (reports db !! report_id = None →
   ∃ e, delete_report report_id user_id db = (db, Raise e) ∧ NotFound e) ∧
  (∀ r, reports db !! report_id = Some r → Report.operator_id r ≠ user_id →
   ∃ e, delete_report report_id user_id db = (db, Raise e) ∧ Forbidden e) ∧
  (∀ r, reports db !! report_id = Some r → Report.operator_id r = user_id →
   delete_report report_id user_id db
   = (with_reports (delete report_id) db, Ok "Intervento eliminato")).
Proof.
  unfold delete_report. session.
  destruct (reports db !! report_id) as [r|] eqn:Hr.
  - split; [done|]. split; intros r' [= <-] Hop; case_decide; try done.
    by eexists.
  - split; [by eexists|]. split; intros; done.
Qed.

Lemma delete_report_outcome_witness :
  (∃ e, delete_report 1 4 Fixture3.db = (Fixture3.db, Raise e) ∧ Forbidden e) ∧
  delete_report 1 2 Fixture3.db
  = (with_reports (delete 1) Fixture3.db, Ok "Intervento eliminato").
Proof.
  destruct (delete_report_outcome Fixture3.db 1 4) as (_ & H4 & _).
  destruct (delete_report_outcome Fixture3.db 1 2) as (_ & _ & H2).
  split; [eapply H4|eapply H2]; first [reflexivity|discriminate].
Defined.

(** ** Deletions keep the references of the store *)

(** What a call of a deletion leaves behind: the store it found and an
    exception, or the store without the row. *)
Lemma delete_commission_inv db id db' res :
  delete_commission id db = (db', res) →
  (db' = db ∧ ∃ e, res = Raise e) ∨
  (db' = with_commissions (delete id) db ∧ ¬ commission_reported db id).
Proof.
  unfold delete_commission. session.
  destruct (commissions db !! id); [|intros [= <- <-]; left; eauto].
  destruct (first _) as [r|] eqn:E; intros [= <- <-]; [left; eauto|].
  right. split; [done|]. by apply report_probe_nil, first_None.
Qed.

Lemma delete_machine_inv db id db' res :
  delete_machine id db = (db', res) →
  (db' = db ∧ ∃ e, res = Raise e) ∨
  (db' = with_machines (delete id) db ∧ ¬ machine_reported db id).
Proof.
  unfold delete_machine. session.
  destruct (machines db !! id); [|intros [= <- <-]; left; eauto].
  destruct (first _) as [r|] eqn:E; intros [= <- <-]; [left; eauto|].
  right. split; [done|]. by apply report_probe_nil, first_None.
Qed.

Lemma delete_plant_inv db id db' res :
  delete_plant id db = (db', res) →
  (db' = db ∧ ∃ e, res = Raise e) ∨
  (db' = with_plants (delete id) db ∧
   ∀ mid m, machines db !! mid = Some m → Machine.plant_id m ≠ id).
Proof.
  unfold delete_plant. session.
  destruct (plants db !! id); [|intros [= <- <-]; left; eauto].
  destruct (first _) as [r|] eqn:E; intros [= <- <-]; [left; eauto|].
  right. split; [done|]. intros mid m Hm Href.
  apply first_None in E.
  apply (proj1 (filter_nil_iff _ _) E (mid, m)); [by apply elem_of_query|done].
Qed.

Lemma delete_client_inv db id db' res :
  delete_client id db = (db', res) →
  (db' = db ∧ ∃ e, res = Raise e) ∨
  (db' = with_clients (delete id) db ∧
   ∀ cid c, commissions db !! cid = Some c → Commission.client_id c ≠ id).
Proof.
  unfold delete_client. session.
  destruct (clients db !! id); [|intros [= <- <-]; left; eauto].
  destruct (first _) as [r|] eqn:E; intros [= <- <-]; [left; eauto|].
  right. split; [done|]. intros cid c Hc Href.
  apply first_None in E.
  apply (proj1 (filter_nil_iff _ _) E (cid, c)); [by apply elem_of_query|done].
Qed.

(** From a lookup in a table of a fixture to the rows of the table. *)
Ltac table_rows H :=
  apply elem_of_map_to_list in H; vm_compute in H;
  repeat (apply elem_of_cons in H as [H|H]; [simplify_eq|]);
  [..|by apply not_elem_of_nil in H].

Lemma Fixture3_resolved :
  reports_resolved Fixture3.db ∧ machines_resolved Fixture3.db ∧
  commissions_resolved Fixture3.db.
Proof.
  split; [|split].
  - intros id r Hr. table_rows Hr; (split; intros Hty; [|]);
      try discriminate Hty; eexists; (split; [reflexivity|by eexists]).
  - intros id m Hm. table_rows Hm; by eexists.
  - intros id c Hc. table_rows Hc; by eexists.
Qed.

(** X6: A store whose reports name existing commissions and machines stays so
    under [delete_commission] and [delete_machine], whatever they return. *)
Theorem delete_keeps_reports_resolved db id :
  reports_resolved db →
  reports_resolved (delete_commission id db).1 ∧
  reports_resolved (delete_machine id db).1.
Proof.
  intros Hres. split.
  - destruct (delete_commission id db) as [db' res] eqn:E.
    apply delete_commission_inv in E as [[-> _]|[-> Hrep]]; [done|].
    intros rid r Hr. simpl in Hr. destruct (Hres rid r Hr) as [H1 H2].
    split; [|exact H2]. intros Hty.
    destruct (H1 Hty) as (w & Hw & Hsome). exists w. split; [done|].
    simpl. rewrite lookup_delete_ne; [done|]. intros <-.
    apply Hrep. by exists rid, r.
  - destruct (delete_machine id db) as [db' res] eqn:E.
    apply delete_machine_inv in E as [[-> _]|[-> Hrep]]; [done|].
    intros rid r Hr. simpl in Hr. destruct (Hres rid r Hr) as [H1 H2].
    split; [exact H1|]. intros Hty.
    destruct (H2 Hty) as (w & Hw & Hsome). exists w. split; [done|].
    simpl. rewrite lookup_delete_ne; [done|]. intros <-.
    apply Hrep. by exists rid, r.
Qed.

Lemma delete_keeps_reports_resolved_witness :
  reports_resolved (delete_commission 3 Fixture3.db).1 ∧
  reports_resolved (delete_machine 2 Fixture3.db).1.
Proof.
  split.
  - apply (delete_keeps_reports_resolved Fixture3.db 3), Fixture3_resolved.
  - apply (delete_keeps_reports_resolved Fixture3.db 2), Fixture3_resolved.
Defined.

(** X7: A store whose machines have their plants and whose commissions have
    their clients stays so under [delete_plant] and [delete_client]. *)
Theorem delete_keeps_owners_resolved db id :
  machines_resolved db → commissions_resolved db →
  machines_resolved (delete_plant id db).1 ∧
  commissions_resolved (delete_client id db).1.
Proof.
  intros Hm Hc. split.
  - destruct (delete_plant id db) as [db' res] eqn:E.
    apply delete_plant_inv in E as [[-> _]|[-> Hno]]; [done|].
    intros mid m Hmid. simpl in *. rewrite lookup_delete_ne; [by eapply Hm|].
    intros Heq. by apply (Hno mid m Hmid).
  - destruct (delete_client id db) as [db' res] eqn:E.
    apply delete_client_inv in E as [[-> _]|[-> Hno]]; [done|].
    intros cid c Hcid. simpl in *. rewrite lookup_delete_ne; [by eapply Hc|].
    intros Heq. by apply (Hno cid c Hcid).
Qed.

Lemma delete_keeps_owners_resolved_witness :
  machines_resolved (delete_plant 2 Fixture3.db).1 ∧
  commissions_resolved (delete_client 3 Fixture3.db).1.
Proof.
  split.
  - apply (delete_keeps_owners_resolved Fixture3.db 2); apply Fixture3_resolved.
  - apply (delete_keeps_owners_resolved Fixture3.db 3); apply Fixture3_resolved.
Defined.

(** ** [delete_user] beyond the protected accounts *)

Lemma get_user_by_id_lookup db user_id :
  get_user_by_id db user_id = (λ u, (user_id, u)) <$> users db !! user_id.
Proof. apply first_filter_id. Qed.

(** The four ways a call of [delete_user] ends. *)
Lemma delete_user_inv db user_id current_user_id :
  (delete_user user_id current_user_id db
   = (db, Raise (HTTPException 403 "Non puoi eliminare questo utente")) ∧
   (user_id = 1 ∨ user_id = current_user_id ∨
    ∃ u, users db !! user_id = Some u ∧ User.role u = "admin")) ∨
  (delete_user user_id current_user_id db = (db, Raise AttributeError) ∧
   user_id ≠ 1 ∧ user_id ≠ current_user_id ∧ users db !! user_id = None) ∨
  (delete_user user_id current_user_id db
   = (with_users (delete user_id) db, Ok "Utente eliminato") ∧
   user_id ≠ 1 ∧ user_id ≠ current_user_id ∧
   ∃ u, users db !! user_id = Some u ∧ User.role u ≠ "admin").
Proof.
  unfold delete_user. session.
  destruct (decide (user_id = 1)) as [H1|H1]; [left; auto|].
  destruct (decide (user_id = current_user_id)) as [H2|H2]; [left; auto|].
  destruct (users db !! user_id) as [u|] eqn:Hu; [|right; left; auto].
  simpl. destruct (decide (User.role u = "admin")) as [Hr|Hr].
  - rewrite bool_decide_eq_true_2 by done. left. split; [done|].
    right. right. by exists u.
  - rewrite bool_decide_eq_false_2 by done. right. right.
    repeat split; try done. by exists u.
Qed.

(** X8: [delete_user] never raises the 404 exception of its last test: a target
    without a row is refused as protected or stops at [user.role] with an
    [AttributeError]. *)
Theorem delete_user_never_not_found db user_id current_user_id db' e :
  delete_user user_id current_user_id db = (db', Raise e) →
  ¬ NotFound e ∧
  (users db !! user_id = None → user_id ≠ 1 → user_id ≠ current_user_id →
   e = AttributeError).
Proof.
  intros He.
  destruct (delete_user_inv db user_id current_user_id)
    as [[E Hp]|[[E _]|[E _]]]; rewrite E in He; simplify_eq.
  - split; [intros []|]. intros Hnone H1 H2.
    destruct Hp as [?|[?|(u & Hu & _)]]; [done..|]. congruence.
  - split; [intros []|done].
Qed.

Lemma delete_user_never_not_found_witness :
  delete_user 9 2 Fixture3.db = (Fixture3.db, Raise AttributeError) ∧
  ¬ NotFound AttributeError.
Proof.
  assert (delete_user 9 2 Fixture3.db = (Fixture3.db, Raise AttributeError))
    as E by (vm_compute; reflexivity).
  split; [exact E|].
  exact (proj1 (delete_user_never_not_found _ _ _ _ _ E)).
Defined.

(** X9: A target that is not protected, is not the acting user and does not
    hold the role [admin] is removed: [get_user_by_id] no longer finds it
    and finds every other user as before. *)
Theorem delete_user_removes db user_id current_user_id u :
  user_id ≠ 1 → user_id ≠ current_user_id →
  users db !! user_id = Some u → User.role u ≠ "admin" →
  ∃ db',
    delete_user user_id current_user_id db = (db', Ok "Utente eliminato") ∧
    get_user_by_id db' user_id = None ∧
    ∀ id, id ≠ user_id → get_user_by_id db' id = get_user_by_id db id.
Proof.
  intros H1 H2 Hu Hr.
  destruct (delete_user_inv db user_id current_user_id)
    as [[_ [?|[?|(u' & Hu' & Hr')]]]|[(_ & _ & _ & Hn)|[E _]]];
    try done; try congruence.
  eexists. split; [exact E|]. rewrite !get_user_by_id_lookup. simpl.
  split; [by rewrite lookup_delete_eq|].
  intros id Hid. rewrite !get_user_by_id_lookup. simpl.
  by rewrite lookup_delete_ne.
Qed.

Lemma delete_user_removes_witness :
  ∃ db',
    delete_user 4 2 Fixture3.db = (db', Ok "Utente eliminato") ∧
    get_user_by_id db' 4 = None ∧
    ∀ id, id ≠ 4 → get_user_by_id db' id = get_user_by_id Fixture3.db id.
Proof.
  apply (delete_user_removes Fixture3.db 4 2 (Fixture.user "luigi" "user"));
    first [discriminate|reflexivity].
Defined.

(** X10: Whatever the target, a call of [delete_user] leaves the rows of user 1,
    of the acting user and of every user with the role [admin]. *)
Theorem delete_user_protects db user_id current_user_id id u :
  users db !! id = Some u →
  id = 1 ∨ id = current_user_id ∨ User.role u = "admin" →
  users (delete_user user_id current_user_id db).1 !! id = Some u.
Proof.
  intros Hu Hprot.
  destruct (delete_user_inv db user_id current_user_id)
    as [[E _]|[[E _]|(E & H1 & H2 & u' & Hu' & Hr')]]; rewrite E; simpl;
    [done..|].
  rewrite lookup_delete_ne; [done|]. intros <-.
  destruct Hprot as [?|[?|?]]; [done..|]. congruence.
Qed.

Lemma delete_user_protects_witness :
  users (delete_user 4 2 Fixture3.db).1 !! 3
  = Some (Fixture.user "capo" "admin") ∧
  users (delete_user 3 2 Fixture3.db).1 !! 3
  = Some (Fixture.user "capo" "admin").
Proof.
  split.
  - apply (delete_user_protects Fixture3.db 4 2 3); [reflexivity|].
    right. right. reflexivity.
  - apply (delete_user_protects Fixture3.db 3 2 3); [reflexivity|].
    right. right. reflexivity.
Defined.

(** ** Reports: creation, edition and deletion together *)

Lemma with_reports_delete_insert db id r :
  reports db !! id = None →
  with_reports (delete id) (with_reports (insert id r) db) = db.
Proof.
  intros Hid. destruct db. unfold with_reports. simpl in *.
  by rewrite delete_insert_id.
Qed.

(** X11: The operator who created a report can delete it, and the store is then
    the one before the creation. *)
Theorem create_then_delete_report now report user_id db :
  ∃ id r db',
    create_report now report user_id db = (db', Ok (id, r)) ∧
    delete_report id user_id db' = (db, Ok "Intervento eliminato").
Proof.
  eexists _, _, _. split; [reflexivity|].
  unfold delete_report. session. simpl. rewrite lookup_insert_eq. simpl.
  rewrite decide_False by (intros H; by apply H).
  by rewrite with_reports_delete_insert by apply next_id_fresh.
Qed.

(** X12: After [edit_report] the report belongs to the editor: [delete_report]
    refuses every other user, the operator it had before among them, and
    removes it for the editor. *)
Theorem edit_then_delete_report db report_id report user_id old :
  reports db !! report_id = Some old →
  ∃ db',
    (edit_report report_id report user_id db).1 = db' ∧
    (∀ other, other ≠ user_id →
       ∃ e, delete_report report_id other db' = (db', Raise e) ∧ Forbidden e) ∧
    delete_report report_id user_id db'
    = (with_reports (delete report_id) db, Ok "Intervento eliminato").
Proof.
  intros Hold. eexists. split; [reflexivity|].
  rewrite (edit_report_existing _ _ _ _ _ Hold). simpl.
  unfold delete_report. session. simpl. rewrite lookup_insert_eq. simpl. split.
  - intros other Hother. rewrite decide_True by done. by eexists.
  - rewrite decide_False by (intros H; by apply H).
    destruct db. unfold with_reports. simpl. by rewrite delete_insert_eq.
Qed.

Lemma edit_then_delete_report_witness :
  Report.operator_id <$> reports Fixture3.db !! 1 = Some 2 ∧
  ∃ db',
    (edit_report 1 Fixture.edit 4 Fixture3.db).1 = db' ∧
    (∃ e, delete_report 1 2 db' = (db', Raise e) ∧ Forbidden e) ∧
    delete_report 1 4 db'
    = (with_reports (delete 1) Fixture3.db, Ok "Intervento eliminato").
Proof.
  split; [reflexivity|].
  destruct (edit_then_delete_report Fixture3.db 1 Fixture.edit 4
              (Fixture.report "machine" (Some 1) 2 (Fixture.day 2024 1 3)))
    as (db' & E & Hother & Hown); [reflexivity|].
  exists db'. split; [exact E|]. split; [apply Hother; discriminate|exact Hown].
Defined.

(** X13: Two editions of a report come to the second one. *)
Theorem edit_report_twice db report_id report1 user_id1 report2 user_id2 :
  edit_report report_id report2 user_id2
    (edit_report report_id report1 user_id1 db).1
  = edit_report report_id report2 user_id2 db.
Proof.
  destruct (reports db !! report_id) as [old|] eqn:Hold.
  - rewrite (edit_report_existing db _ report1 user_id1 _ Hold). simpl.
    rewrite (edit_report_existing db _ report2 user_id2 _ Hold).
    erewrite edit_report_existing by (simpl; apply lookup_insert_eq).
    destruct db. unfold with_reports. simpl. by rewrite insert_insert_eq.
  - rewrite (edit_report_missing db _ report1 user_id1 Hold). done.
Qed.

(** X14: [edit_report] adds and removes no report: the ids of the reports are
    those before the call, and when no report has the id the store is kept
    and the pair with the code 400 is returned, not raised. *)
Theorem edit_report_keeps_ids db report_id report user_id :
  dom (reports (edit_report report_id report user_id db).1)
  = dom (reports db) ∧
  (reports db !! report_id = None →
   edit_report report_id report user_id db
   = (db, Ok (ErrorPair "Errore" 400))).
Proof.
  split; [|apply edit_report_missing].
  destruct (reports db !! report_id) as [old|] eqn:Hold.
  - rewrite (edit_report_existing _ _ _ _ _ Hold). simpl.
    rewrite dom_insert_L. apply subseteq_union_1_L, singleton_subseteq_l.
    by apply elem_of_dom_2 in Hold.
  - by rewrite (edit_report_missing _ _ _ _ Hold).
Qed.

(** X15: The month of a created report is listed by [get_months], without filter
    and under the filter of its operator, and no month listed before is
    lost. *)
Theorem create_report_month_listed now report user_id db :
  let db' := (create_report now report user_id db).1 in
  strftime_mY (schemas.ReportCreate.date report) ∈ get_months db' None None ∧
  strftime_mY (schemas.ReportCreate.date report)
    ∈ get_months db' (Some user_id) None ∧
  ∀ filter_user work_id s,
    s ∈ get_months db filter_user work_id →
    s ∈ get_months db' filter_user work_id.
Proof.
  cbv zeta. unfold create_report. session. simpl.
  pose proof (next_id_fresh (reports db)) as Hfresh.
  split; [|split].
  - apply elem_of_get_months. eexists (next_id (reports db), _). simpl.
    split; [apply lookup_insert_eq|]. simpl. done.
  - apply elem_of_get_months. eexists (next_id (reports db), _). simpl.
    split; [apply lookup_insert_eq|]. simpl. done.
  - intros fu w s ([id r] & Hr & Hu & Hw & Hs)%elem_of_get_months.
    apply elem_of_get_months. exists (id, r). simpl in *.
    split; [|done]. rewrite lookup_insert_ne; [done|]. congruence.
Qed.

(** ** The order of datetimes *)

Lemma lex_compare_antisym a b : lex_compare a b = CompOpp (lex_compare b a).
Proof.
  revert b. induction a as [|x a IH]; intros [|y b]; simpl; try done.
  rewrite (Z.compare_antisym y x). destruct (y ?= x); simpl; auto.
Qed.

Lemma lex_compare_trans a b c :
  lex_compare a b ≠ Gt → lex_compare b c ≠ Gt → lex_compare a c ≠ Gt.
Proof.
  revert b c. induction a as [|x a IH]; intros [|y b] [|z c]; simpl; try done.
  destruct (Z.compare_spec x y), (Z.compare_spec y z); try done;
    intros H1 H2; subst.
  - rewrite Z.compare_refl. by eapply IH.
  - by rewrite (proj2 (Z.compare_lt_iff _ _)).
  - by rewrite (proj2 (Z.compare_lt_iff _ _)).
  - rewrite (proj2 (Z.compare_lt_iff x z)) by lia. done.
Qed.

Global Instance datetime_le_total : Total datetime_le.
Proof.
  intros a b. unfold datetime_le, datetime_compare.
  rewrite (lex_compare_antisym (datetime_key b)).
  destruct (lex_compare (datetime_key a) (datetime_key b)); simpl; auto.
Qed.

Global Instance datetime_le_trans : Transitive datetime_le.
Proof. intros a b c. apply lex_compare_trans. Qed.

Global Instance date_desc_total : Total date_desc.
Proof. intros a b. unfold date_desc. destruct (total datetime_le
  (Report.date (j_report a).2) (Report.date (j_report b).2)); auto. Qed.

Global Instance date_desc_trans : Transitive date_desc.
Proof. intros a b c Hab Hbc. unfold date_desc in *. by etrans. Qed.

(** ** [get_reports]: order, types and completeness *)

(** X16: The rows of [get_reports] come newest first: no row is dated before a
    row that follows it. *)
Theorem get_reports_sorted_desc db user_id :
  StronglySorted
    (λ a b, datetime_le (Report.date (Report_ b).2) (Report.date (Report_ a).2))
    (get_reports db user_id).
Proof.
  unfold get_reports. cbv zeta.
  apply (StronglySorted_fmap _ date_desc); [done|].
  apply StronglySorted_merge_sort; apply _.
Qed.

(** X17: Every row of [get_reports] is of a report typed ["commission"] or
    ["machine"] whose operator has a user row, the one the name columns
    come from; under an operator filter other than 0 every row is of that
    operator. *)
Theorem get_reports_rows db user_id row :
  row ∈ get_reports db user_id →
  reports db !! (Report_ row).1 = Some (Report_ row).2 ∧
  (Report.type (Report_ row).2 = "commission" ∨
   Report.type (Report_ row).2 = "machine") ∧
  operator_id row = Report.operator_id (Report_ row).2 ∧
  (∃ u, users db !! operator_id row = Some u ∧
        first_name row = User.first_name u ∧
        last_name row = User.last_name u) ∧
  (truthy user_id → user_id = Some (operator_id row)).
Proof.
  intros (j & -> & Hj & Hf)%elem_of_get_reports.
  apply elem_of_get_reports_joined in Hj. cbv zeta in Hj.
  destruct Hj as (Hr & Hc & Hm & Hu & Hp & Hk). simpl.
  apply elem_of_query in Hr. apply elem_of_join in Hu as [Hu Huin].
  apply elem_of_query in Huin. split; [done|]. split.
  { apply elem_of_join in Hk as [[Hk|[_ Hk]] _]; [|by right].
    apply elem_of_outerjoin in Hc as [[Hc _]|(c & _ & [Hc _] & _)];
      [by rewrite Hc in Hk|by left]. }
  split; [by symmetry|]. split; [by eexists|].
  intros Ht. specialize (Hf Ht). destruct user_id as [uid|]; [|done].
  simpl in Hf. congruence.
Qed.

Lemma get_reports_rows_witness :
  ∃ row, row ∈ get_reports Fixture3.db (Some 4) ∧ operator_id row = 4 ∧
         Report.type (Report_ row).2 = "commission".
Proof.
  assert (∃ row, row ∈ get_reports Fixture3.db (Some 4)) as [row Hrow].
  { eexists. vm_compute. left. }
  exists row. split; [exact Hrow|].
  destruct (get_reports_rows Fixture3.db (Some 4) row Hrow)
    as (Hr & Hty & Hop & _ & Hf).
  assert (operator_id row = 4) as H4.
  { specialize (Hf ltac:(discriminate)). congruence. }
  split; [exact H4|].
  rewrite H4 in Hop. destruct (Report_ row) as [id r]. simpl in *.
  table_rows Hr; simpl in *; done.
Defined.

(** X18: A commission-typed report is listed with its commission and with the
    client of that commission; no machine is joined to it. *)
Theorem get_reports_commission_client db user_id row :
  row ∈ get_reports db user_id →
  Report.type (Report_ row).2 = "commission" →
  machine_id row = None ∧
  ∃ w c k,
    Report.work_id (Report_ row).2 = Some w ∧ commission_id row = Some w ∧
    commissions db !! w = Some c ∧
    commission_code row = Some (Commission.code c) ∧
    client_id row = Commission.client_id c ∧
    clients db !! client_id row = Some k ∧ client_name row = Client.name k.
Proof.
  intros (j & -> & Hj & _)%elem_of_get_reports Hty. simpl in *.
  apply elem_of_get_reports_joined in Hj. cbv zeta in Hj.
  destruct Hj as (_ & Hc & Hm & _ & Hp & Hk).
  assert ("commission" ≠ "machine") as Hne by discriminate.
  apply elem_of_outerjoin in Hm as [[Hm _]|(m & _ & [Hm _] & _)];
    [|rewrite Hty in Hm; by destruct Hne].
  rewrite Hm. split; [done|].
  apply elem_of_join in Hk as [[Hk|[_ Hk]] Hkin];
    [|rewrite Hty in Hk; by destruct Hne].
  apply elem_of_query in Hkin.
  apply elem_of_outerjoin in Hc as [[Hc _]|(c & Hc & [_ Hw] & Hcin)];
    rewrite Hc in Hk; [done|].
  apply elem_of_query in Hcin. simpl in Hk.
  destruct (Report.work_id (j_report j).2) as [w|] eqn:Hwk; [|done].
  simpl in Hw. subst w. exists c.1, c.2, (j_client j).2. rewrite Hc. simpl.
  rewrite Hk. done.
Qed.

Lemma get_reports_commission_client_witness :
  ∃ row, row ∈ get_reports Fixture3.db (Some 4) ∧
         machine_id row = None ∧ commission_id row = Some 1 ∧
         client_id row = 1.
Proof.
  assert (∃ row, row ∈ get_reports Fixture3.db (Some 4) ∧
                 (Report_ row).1 = 2 ∧
                 Report.type (Report_ row).2 = "commission" ∧
                 Report.work_id (Report_ row).2 = Some 1)
    as (row & Hrow & _ & Hty & Hw).
  { eexists. split; [vm_compute; left|]. done. }
  exists row. split; [exact Hrow|].
  destruct (get_reports_commission_client Fixture3.db (Some 4) row Hrow Hty)
    as (Hm & w & c & k & Hw' & Hc & Hcin & _ & Hk & _).
  split; [exact Hm|]. rewrite Hw in Hw'. injection Hw' as <-.
  split; [exact Hc|]. rewrite Hk. vm_compute in Hcin. by simplify_eq.
Defined.

(** X19: A report whose operator has a user row and whose client can be reached,
    through its commission or through its machine and plant, is listed by
    [get_reports] under every filter its operator passes. *)
Theorem get_reports_lists db user_id id r u :
  reports db !! id = Some r →
  users db !! Report.operator_id r = Some u →
  (truthy user_id → user_id = Some (Report.operator_id r)) →
  (Report.type r = "commission" ∧
   ∃ w c, Report.work_id r = Some w ∧ commissions db !! w = Some c ∧
          is_Some (clients db !! Commission.client_id c)) ∨
  (Report.type r = "machine" ∧ ∃ k, client_via_machine db r k) →
  ∃ row, row ∈ get_reports db user_id ∧ Report_ row = (id, r).
Proof.
  intros Hr Hu Hf Hcase.
  assert (∃ j, j ∈ get_reports_joined db ∧ j_report j = (id, r)) as (j & Hj & Hjr).
  { destruct Hcase as [(Hty & w & c & Hw & Hc & [k Hk])
                      |(Hty & [kid k] & mid & m & p & Hw & Hm & Hp & Hkid & Hk)].
    - exists {| j_report := (id, r); j_commission := Some (w, c);
                j_machine := None; j_user := (Report.operator_id r, u);
                j_plant := None;
                j_client := (Commission.client_id c, k) |}.
      split; [|done]. apply elem_of_get_reports_joined. cbv zeta. simpl.
      split; [by apply elem_of_query|].
      split.
      { apply elem_of_outerjoin. right. exists (w, c).
        rewrite Hw. repeat split; try done. by apply elem_of_query. }
      split.
      { apply elem_of_outerjoin. left. split; [done|].
        intros m _ [Hm _]. by rewrite Hty in Hm. }
      split; [apply elem_of_join; split; [done|by apply elem_of_query]|].
      split.
      { apply elem_of_outerjoin. left. split; [done|].
        intros p _ [Hp _]. by rewrite Hty in Hp. }
      apply elem_of_join. split; [by left|by apply elem_of_query].
    - simpl in *.
      exists {| j_report := (id, r); j_commission := None;
                j_machine := Some (mid, m);
                j_user := (Report.operator_id r, u);
                j_plant := Some (Machine.plant_id m, p);
                j_client := (kid, k) |}.
      split; [|done]. apply elem_of_get_reports_joined. cbv zeta. simpl.
      split; [by apply elem_of_query|].
      split.
      { apply elem_of_outerjoin. left. split; [done|].
        intros c _ [Hc _]. by rewrite Hty in Hc. }
      split.
      { apply elem_of_outerjoin. right. exists (mid, m).
        rewrite Hw. repeat split; try done. by apply elem_of_query. }
      split; [apply elem_of_join; split; [done|by apply elem_of_query]|].
      split.
      { apply elem_of_outerjoin. right. exists (Machine.plant_id m, p).
        repeat split; try done. by apply elem_of_query. }
      apply elem_of_join. split; [by right|by apply elem_of_query]. }
  exists (select_report_row j). split; [|done].
  apply elem_of_get_reports. exists j. repeat split; try done.
  intros Ht. rewrite Hjr. simpl. by rewrite (Hf Ht).
Qed.

Lemma get_reports_lists_witness :
  ∃ row, row ∈ get_reports Fixture3.db (Some 2) ∧
         Report_ row
         = (1, Fixture.report "machine" (Some 1) 2 (Fixture.day 2024 1 3)).
Proof.
  apply (get_reports_lists Fixture3.db (Some 2) 1 _ (Fixture.user "mario" "user"));
    [reflexivity..|].
  right. split; [reflexivity|]. exists (1, {| Client.name := "Beta" |}).
  exists 1, (Fixture.machine "pressa" 1),
    {| Plant.name := "Nord"; Plant.client_id := 1 |}. done.
Defined.

(** ** [get_report_by_id] *)

Lemma outerjoin_iff {B} (t : list B) (on1 on2 : B → Prop)
    `{∀ b, Decision (on1 b)} `{∀ b, Decision (on2 b)} :
  (∀ b, on1 b ↔ on2 b) → outerjoin t on1 = outerjoin t on2.
Proof. intros Hiff. unfold outerjoin. by rewrite (list_filter_iff on1 on2). Qed.

(** Its join has the rows of the join of [get_reports]: a plant is joined
    to a machine only, and a machine to a machine-typed report only. *)
Lemma elem_of_get_report_by_id_joined db j :
  j ∈ get_report_by_id_joined db ↔ j ∈ get_reports_joined db.
Proof.
  rewrite elem_of_get_reports_joined. cbv zeta.
  unfold get_report_by_id_joined. split.
  - intros Hj.
    apply list_elem_of_bind in Hj as (r & Hj & Hr).
    apply list_elem_of_bind in Hj as (c & Hj & Hc).
    apply list_elem_of_bind in Hj as (m & Hj & Hm).
    apply list_elem_of_bind in Hj as (u & Hj & Hu).
    apply list_elem_of_bind in Hj as (p & Hj & Hp).
    apply list_elem_of_bind in Hj as (k & Hj & Hk).
    apply list_elem_of_singleton in Hj as ->. simpl.
    assert (is_Some m → Report.type r.2 = "machine") as Hmty.
    { intros [m' ->].
      by apply elem_of_outerjoin in Hm as [[? _]|(? & _ & [? _] & _)]. }
    assert (is_Some p → Report.type r.2 = "machine") as Hpty.
    { intros [p' ->]. apply Hmty.
      apply elem_of_outerjoin in Hp as [[? _]|(? & _ & Hp & _)]; [done|].
      destruct m; [by eexists|done]. }
    repeat split; try done.
    + erewrite outerjoin_iff; [exact Hp|]. intros b. split; [tauto|].
      intros Hb. split; [|done]. apply Hmty. destruct m; [by eexists|done].
    + apply elem_of_join in Hk as [[Hk|Hk] Hkin]; apply elem_of_join;
        (split; [|done]); [right|by left].
      split; [done|]. apply Hpty. destruct p; [by eexists|done].
  - destruct j as [r c m u p k]. simpl. intros (Hr & Hc & Hm & Hu & Hp & Hk).
    assert (is_Some m → Report.type r.2 = "machine") as Hmty.
    { intros [m' ->].
      by apply elem_of_outerjoin in Hm as [[? _]|(? & _ & [? _] & _)]. }
    apply list_elem_of_bind. exists r. split; [|done].
    apply list_elem_of_bind. exists c. split; [|done].
    apply list_elem_of_bind. exists m. split; [|done].
    apply list_elem_of_bind. exists u. split; [|done].
    apply list_elem_of_bind. exists p. split.
    2:{ erewrite outerjoin_iff; [exact Hp|]. intros b. split; [|tauto].
        intros Hb. split; [|done]. apply Hmty. destruct m; [by eexists|done]. }
    apply list_elem_of_bind. exists k. split.
    2:{ apply elem_of_join in Hk as [Hk Hkin]. apply elem_of_join. tauto. }
    by apply list_elem_of_singleton.
Qed.

(** X20: [get_report_by_id] agrees with [get_reports]: it returns a row exactly
    for the ids [get_reports] lists without filter, the row is of that id,
    and [get_reports] has a row with the same report, commission, machine,
    operator and client. *)
Theorem get_report_by_id_agrees db report_id :
  (is_Some (get_report_by_id db report_id) ↔
   ∃ row, row ∈ get_reports db None ∧ (Report_ row).1 = report_id) ∧
  ∀ d, get_report_by_id db report_id = Some d →
    (Detail.Report_ d).1 = report_id ∧
    ∃ row, row ∈ get_reports db None ∧
      Report_ row = Detail.Report_ d ∧
      commission_id row = Detail.commission_id d ∧
      machine_id row = Detail.machine_id d ∧
      operator_id row = Detail.operator_id d ∧
      client_id row = Detail.client_id d ∧
      client_name row = Detail.client_name d.
Proof.
  unfold get_report_by_id. split.
  - split.
    + intros [d Hd]. destruct (first _) as [j|] eqn:E; [|done].
      apply first_elem_of, list_elem_of_filter in E as [Hid Hj].
      apply (proj1 (elem_of_get_report_by_id_joined db j)) in Hj.
      exists (select_report_row j). split; [|done].
      apply elem_of_get_reports. by exists j.
    + intros (row & (j & -> & Hj & _)%elem_of_get_reports & Hid).
      apply (proj2 (elem_of_get_report_by_id_joined db j)) in Hj.
      destruct (first_is_Some
        (filter (λ j, (j_report j).1 = report_id) (get_report_by_id_joined db))
        j) as [j' ->]; [by apply list_elem_of_filter|]. by eexists.
  - intros d Hd. destruct (first _) as [j|] eqn:E; [|done].
    simpl in Hd. injection Hd as <-.
    apply first_elem_of, list_elem_of_filter in E as [Hid Hj].
    apply (proj1 (elem_of_get_report_by_id_joined db j)) in Hj.
    split; [done|]. exists (select_report_row j). split; [|done].
    apply elem_of_get_reports. by exists j.
Qed.

(** A report that is missing, or whose client cannot be reached, has no
    detail row. *)
Example get_report_by_id_fixture :
  Detail.client_id <$> get_report_by_id Fixture.db 1 = Some 1 ∧
  get_report_by_id Fixture.db 2 = None ∧
  get_report_by_id Fixture.db 9 = None.
Proof. repeat split; vm_compute; reflexivity. Qed.

(** ** [get_machines], [get_plant_by_client] and the deleted client *)

Lemma elem_of_get_machines db (m : row Machine.t) (p : row Plant.t)
    (k : row Client.t) :
  (m, p, k) ∈ get_machines db ↔
  machines db !! m.1 = Some m.2 ∧
  p.1 = Machine.plant_id m.2 ∧ plants db !! p.1 = Some p.2 ∧
  k.1 = Plant.client_id p.2 ∧ clients db !! k.1 = Some k.2.
Proof.
  unfold get_machines. split.
  - intros H.
    apply list_elem_of_bind in H as (m' & H & Hm).
    apply list_elem_of_bind in H as (p' & H & Hp).
    apply list_elem_of_bind in H as (k' & H & Hk).
    apply list_elem_of_singleton in H. simplify_eq.
    apply elem_of_query in Hm. apply elem_of_join in Hp as [Hp Hpin].
    apply elem_of_join in Hk as [Hk Hkin].
    apply elem_of_query in Hpin. apply elem_of_query in Hkin. done.
  - intros (Hm & Hp & Hpin & Hk & Hkin).
    apply list_elem_of_bind. exists m. split; [|by apply elem_of_query].
    apply list_elem_of_bind. exists p. split.
    2:{ apply elem_of_join. split; [done|by apply elem_of_query]. }
    apply list_elem_of_bind. exists k. split.
    2:{ apply elem_of_join. split; [done|by apply elem_of_query]. }
    by apply list_elem_of_singleton.
Qed.

(** X21: A machine is listed by [get_machines] exactly when its plant has a row
    and the client of that plant has a row; it is listed with them. *)
Theorem get_machines_listed db (m : row Machine.t) :
  (∃ p k, (m, p, k) ∈ get_machines db) ↔
  machines db !! m.1 = Some m.2 ∧
  ∃ p, plants db !! Machine.plant_id m.2 = Some p ∧
       is_Some (clients db !! Plant.client_id p).
Proof.
  split.
  - intros (p & k & (Hm & Hp & Hpin & Hk & Hkin)%elem_of_get_machines).
    split; [done|]. exists p.2. rewrite <- Hp, <- Hk. split; [done|by eexists].
  - intros (Hm & p & Hp & [k Hk]).
    exists (Machine.plant_id m.2, p), (Plant.client_id p, k).
    by apply elem_of_get_machines.
Qed.

(** X22: When [delete_client] deletes a client that owns a plant, the plant is
    still listed by [get_plant_by_client] under the id of the client, and
    the machines of the plant are no longer listed by [get_machines]. *)
Theorem delete_client_hides_machines db client_id db' msg :
  delete_client client_id db = (db', Ok msg) →
  get_plant_by_client db' client_id = get_plant_by_client db client_id ∧
  ∀ (m : row Machine.t) p,
    machines db !! m.1 = Some m.2 →
    plants db !! Machine.plant_id m.2 = Some p →
    Plant.client_id p = client_id →
    ¬ ∃ p' k, (m, p', k) ∈ get_machines db'.
Proof.
  intros Hdel. apply delete_client_inv in Hdel as [[_ [e ?]]|[-> _]]; [done|].
  split; [done|]. intros m p Hm Hp Hcid (p' & k & Hin).
  apply elem_of_get_machines in Hin as (_ & Hp' & Hpin & Hk & Hkin).
  simpl in *. rewrite Hp', Hp in Hpin. injection Hpin as ->.
  rewrite Hk, Hcid, lookup_delete_eq in Hkin. done.
Qed.

Lemma delete_client_hides_machines_witness :
  (∃ p k, ((1, Fixture.machine "pressa" 1), p, k) ∈ get_machines Fixture4.db) ∧
  ∃ db', delete_client 1 Fixture4.db = (db', Ok "Cliente eliminato") ∧
    get_plant_by_client db' 1 = [(1, {| Plant.name := "Nord"; Plant.client_id := 1 |})] ∧
    ¬ ∃ p' k, ((1, Fixture.machine "pressa" 1), p', k) ∈ get_machines db'.
Proof.
  split.
  { eexists _, _. vm_compute. left. }
  eexists. split; [vm_compute; reflexivity|].
  split; [vm_compute; reflexivity|].
  eapply (delete_client_hides_machines Fixture4.db 1 _ "Cliente eliminato");
    [vm_compute; reflexivity| |..]; reflexivity.
Defined.

(** ** [get_commissions] and [get_user_commissions] *)

Global Instance by_client_name_total : Total by_client_name.
Proof. intros a b. unfold by_client_name. apply (total String.le). Qed.

Global Instance by_client_name_trans : Transitive by_client_name.
Proof. intros a b c. unfold by_client_name. apply (transitivity (R := String.le)). Qed.

Lemma elem_of_get_user_commissions db user_id (c : row Commission.t)
    (k : row Client.t) :
  (c, k) ∈ get_user_commissions db user_id ↔
  commissions db !! c.1 = Some c.2 ∧
  k.1 = Commission.client_id c.2 ∧ clients db !! k.1 = Some k.2.
Proof.
  unfold get_user_commissions. split.
  - intros H.
    apply list_elem_of_bind in H as (c' & H & Hc).
    apply list_elem_of_bind in H as (k' & H & Hk).
    apply list_elem_of_singleton in H. simplify_eq.
    apply elem_of_query in Hc. apply elem_of_join in Hk as [Hk Hkin].
    apply elem_of_query in Hkin. done.
  - intros (Hc & Hk & Hkin).
    apply list_elem_of_bind. exists c. split; [|by apply elem_of_query].
    apply list_elem_of_bind. exists k. split.
    2:{ apply elem_of_join. split; [done|by apply elem_of_query]. }
    by apply list_elem_of_singleton.
Qed.

(** X23: [get_commissions] lists the commissions whose client has a row, each with
    that client, in the order of the client names; a filter other than 0
    keeps the commissions of that client; without filter the rows are those
    of [get_user_commissions], whatever user it is asked for. *)
Theorem get_commissions_sorted db client_id :
  StronglySorted (λ a b, String.le (Client.name a.2.2) (Client.name b.2.2))
    (get_commissions db client_id) ∧
  (∀ (c : row Commission.t) (k : row Client.t),
     (c, k) ∈ get_commissions db client_id ↔
     commissions db !! c.1 = Some c.2 ∧
     k.1 = Commission.client_id c.2 ∧ clients db !! k.1 = Some k.2 ∧
     (truthy client_id → client_id = Some (Commission.client_id c.2))) ∧
  ∀ user_id, get_commissions db None ≡ₚ get_user_commissions db user_id.
Proof.
  split; [|split].
  - unfold get_commissions. cbv zeta.
    apply (StronglySorted_merge_sort by_client_name).
  - intros c k. unfold get_commissions. cbv zeta.
    rewrite merge_sort_Permutation.
    change (c0 ← query (commissions db);
            k0 ← join (query (clients db))
                   (λ k0, Commission.client_id c0.2 = k0.1); [(c0, k0)])
      with (get_user_commissions db 0).
    destruct (decide (truthy client_id)) as [Ht|Ht].
    + rewrite list_elem_of_filter, elem_of_get_user_commissions. simpl.
      destruct client_id as [cid|]; [|done]. simpl. split.
      * intros (-> & ? & ? & ?). done.
      * intros (? & ? & ? & Hc). specialize (Hc Ht). by simplify_eq.
    + rewrite elem_of_get_user_commissions. tauto.
  - intros user_id. unfold get_commissions. cbv zeta.
    by rewrite merge_sort_Permutation.
Qed.

(** ** [get_months]: filters only narrow *)

(** X24: A month listed under an operator or work filter is listed without
    filter. *)
Theorem get_months_filters_narrow db user_id work_id s :
  s ∈ get_months db user_id work_id → s ∈ get_months db None None.
Proof.
  intros (r & Hr & _ & _ & Hs)%elem_of_get_months.
  apply elem_of_get_months. exists r. done.
Qed.

Lemma get_months_filters_narrow_witness :
  "01/2024" ∈ get_months Fixture3.db (Some 4) (Some 1) ∧
  "01/2024" ∈ get_months Fixture3.db None None.
Proof.
  assert ("01/2024" ∈ get_months Fixture3.db (Some 4) (Some 1)) as H
    by (vm_compute; left).
  split; [exact H|]. exact (get_months_filters_narrow _ _ _ _ H).
Defined.

(** ** [get_reports_in_interval]: the dates and the operator *)

Lemma strptime_ok_nonempty s d : strptime s = Ok d → s ≠ Some "".
Proof. intros H ->. by rewrite strptime_empty in H. Qed.

(** X25: With two dates the rows are dated between them, both ends included, the
    ends being the datetimes [strptime] returns; when the start is later
    than the end there is no row. *)
Theorem get_reports_in_interval_range db start_date end_date work_id
    operator_id s e :
  strptime start_date = Ok s → strptime end_date = Ok e →
  ∃ rows,
    get_reports_in_interval db start_date end_date work_id operator_id
    = Ok rows ∧
    (∀ row, row ∈ rows →
       datetime_le s (Report.date (Interval.Report_ row).2) ∧
       datetime_le (Report.date (Interval.Report_ row).2) e) ∧
    (¬ datetime_le s e → rows = []).
Proof.
  intros Hs He.
  pose proof (strptime_ok_nonempty _ _ Hs) as Hs'.
  pose proof (strptime_ok_nonempty _ _ He) as He'.
  unfold get_reports_in_interval. cbv zeta.
  rewrite (decide_True (P := start_date ≠ Some "" ∧ end_date ≠ Some "")) by done.
  unfold mbind, mret, result_mbind, result_mret. rewrite Hs, He. simpl.
  eexists. split; [reflexivity|].
  assert (∀ row, row ∈ Interval.select <$>
      filter (λ j, datetime_le s (report_date j) ∧ datetime_le (report_date j) e)
        (if decide (operator_id ≠ Some 0)
         then filter (λ j, column_eq
                       (Some (Report.operator_id (Interval.j_report j).2))
                       operator_id)
                (if decide (work_id ≠ Some 0)
                 then filter (λ j, column_eq
                               (Report.work_id (Interval.j_report j).2) work_id)
                        (get_reports_in_interval_joined db)
                 else get_reports_in_interval_joined db)
         else (if decide (work_id ≠ Some 0)
               then filter (λ j, column_eq
                             (Report.work_id (Interval.j_report j).2) work_id)
                      (get_reports_in_interval_joined db)
               else get_reports_in_interval_joined db)) →
       datetime_le s (Report.date (Interval.Report_ row).2) ∧
       datetime_le (Report.date (Interval.Report_ row).2) e) as Hrows.
  { intros row (j & -> & [Hj _]%list_elem_of_filter)%list_elem_of_fmap. done. }
  split; [exact Hrows|].
  intros Hse. destruct (Interval.select <$> _) as [|row rows] eqn:E; [done|].
  destruct (Hrows row) as [H1 H2]; [left|]. destruct Hse. by etrans.
Qed.

Lemma get_reports_in_interval_range_witness :
  ∃ rows,
    get_reports_in_interval Fixture3.db (Some "2024-01-01") (Some "2024-01-31")
      (Some 0) (Some 0) = Ok rows ∧
    (λ row, (Interval.Report_ row).1) <$> rows = [2; 1] ∧
    ∃ rows',
      get_reports_in_interval Fixture3.db (Some "2024-01-31")
        (Some "2024-01-01") (Some 0) (Some 0) = Ok rows' ∧ rows' = [].
Proof.
  eexists. split; [vm_compute; reflexivity|]. split; [vm_compute; reflexivity|].
  destruct (get_reports_in_interval_range Fixture3.db (Some "2024-01-31")
              (Some "2024-01-01") (Some 0) (Some 0)
              (Fixture.day 2024 1 31) (Fixture.day 2024 1 1))
    as (rows' & E & _ & Hempty); [reflexivity..|].
  exists rows'. split; [exact E|]. apply Hempty. vm_compute. tauto.
Defined.

(** X26: A start date of ASCII characters that is neither empty nor a date
    raises [ValueError] whatever the other arguments; so does such an end
    date after a start date that is empty or a date. *)
Theorem get_reports_in_interval_bad_date db s other work_id operator_id :
  isascii s = true → s ≠ "" → strptime (Some s) = Raise ValueError →
  get_reports_in_interval db (Some s) other work_id operator_id
  = Raise ValueError ∧
  (date_arg_ok other →
   get_reports_in_interval db other (Some s) work_id operator_id
   = Raise ValueError).
Proof.
  intros _ Hne Hbad.
  assert (Some s ≠ Some "") as Hne' by congruence.
  generalize dependent (Some s). clear s Hne. intros bad Hbad Hne. split.
  - interval_cases; rewrite ?Hbad; simpl; try done;
      exfalso; intuition congruence.
  - intros [->|[d Hd]]; interval_cases; rewrite ?Hd, ?Hbad; simpl; try done;
      try (rewrite strptime_empty in Hd; discriminate);
      exfalso; intuition congruence.
Qed.

Lemma get_reports_in_interval_bad_date_witness :
  get_reports_in_interval Fixture3.db (Some "31/01/2024") None (Some 0)
    (Some 0) = Raise ValueError ∧
  get_reports_in_interval Fixture3.db (Some "") (Some "2024-02-30") (Some 0)
    (Some 0) = Raise ValueError.
Proof.
  split.
  - apply (get_reports_in_interval_bad_date Fixture3.db "31/01/2024" None);
      [reflexivity|discriminate|vm_compute; reflexivity].
  - apply (get_reports_in_interval_bad_date Fixture3.db "2024-02-30" (Some ""));
      [reflexivity|discriminate|vm_compute; reflexivity|by left].
Defined.

(** X27: With [operator_id] [None] the operator column is compared with [NULL]:
    no row is returned. *)
Theorem get_reports_in_interval_operator_none db start_date end_date work_id
    rows :
  get_reports_in_interval db start_date end_date work_id None = Ok rows →
  rows = [].
Proof.
  interval_cases; intros Hres;
    repeat match type of Hres with
           | context [strptime ?s] =>
               destruct (strptime s); simpl in Hres; [|discriminate]
           end;
    injection Hres as <-; try done.
  all: match goal with
       | |- Interval.select <$> ?l = [] =>
           destruct l as [|j l'] eqn:E; [done|];
           assert (j ∈ l) as Hj by (rewrite E; left); clear E
       end.
  all: repeat (apply list_elem_of_filter in Hj as [? Hj]); done.
Qed.

Lemma get_reports_in_interval_operator_none_witness :
  get_reports_in_interval Fixture3.db (Some "") (Some "") (Some 0) None = Ok [].
Proof.
  assert (∃ rows, get_reports_in_interval Fixture3.db (Some "") (Some "")
                    (Some 0) None = Ok rows) as [rows E]
    by (eexists; vm_compute; reflexivity).
  rewrite E. f_equal.
  exact (get_reports_in_interval_operator_none _ _ _ _ _ E).
Defined.

(** ** [get_reports_in_month] *)

Lemma outerjoin_inhabited {B} (t : list B) (on : B → Prop)
    `{∀ b, Decision (on b)} : ∃ o, o ∈ outerjoin t on.
Proof.
  unfold outerjoin. destruct (filter on t) as [|b l].
  - exists None. left.
  - exists (Some b). left.
Qed.

(** No join of [get_reports_in_month] is an inner join: every report is in
    its join. *)
Lemma get_reports_in_month_joined_report db (r : row Report.t) :
  (∃ j, j ∈ get_reports_in_month_joined db ∧ Month.j_report j = r) ↔
  reports db !! r.1 = Some r.2.
Proof.
  unfold get_reports_in_month_joined. split.
  - intros (j & Hj & <-).
    apply list_elem_of_bind in Hj as (r' & Hj & Hr).
    apply list_elem_of_bind in Hj as (c & Hj & _).
    apply list_elem_of_bind in Hj as (m & Hj & _).
    apply list_elem_of_singleton in Hj as ->. simpl. by apply elem_of_query.
  - intros Hr.
    destruct (outerjoin_inhabited (query (commissions db))
      (λ c, sql_eq (case_when (Report.type r.2 = "commission")
                      (Report.work_id r.2)) (Some c.1))) as [c Hc].
    destruct (outerjoin_inhabited (query (machines db))
      (λ m, sql_eq (case_when (Report.type r.2 = "machine")
                      (Report.work_id r.2)) (Some m.1))) as [m Hm].
    exists {| Month.j_report := r; Month.j_commission := c;
              Month.j_machine := m |}. split; [|done].
    apply list_elem_of_bind. exists r. split; [|by apply elem_of_query].
    apply list_elem_of_bind. exists c. split; [|done].
    apply list_elem_of_bind. exists m. split; [|done].
    by apply list_elem_of_singleton.
Qed.

Lemma days_in_month_bounds y m : 28 ≤ days_in_month y m ≤ 31.
Proof.
  unfold days_in_month. repeat case_decide; try destruct (is_leap y); lia.
Qed.

Ltac calendar_step :=
  first [ rewrite decide_True by lia | rewrite decide_False by lia ];
  cbn [year month day hour minute second microsecond mbind option_bind].

Lemma sub_days_S n d : sub_days (S n) d = prev_day d ≫= sub_days n.
Proof. reflexivity. Qed.

(** The last day of a month is found for every month but December 9999,
    where the fourth day after the 28th leaves the calendar. *)
Lemma month_end y m :
  1 ≤ m ≤ 12 → 1 ≤ y ≤ 9999 →
  let start := {| year := y; month := m; day := 1; hour := 0; minute := 0;
                  second := 0; microsecond := 0 |} in
  (m = 12 ∧ y = 9999 → add_days 4 (replace_day_28 start) = None) ∧
  (¬ (m = 12 ∧ y = 9999) →
   ∃ e e', add_days 4 (replace_day_28 start) = Some e ∧
           sub_days (Z.to_nat (day e)) e = Some e').
Proof.
  intros Hm Hy. cbv zeta. split.
  - intros [-> ->]. reflexivity.
  - intros Hne.
    pose proof (days_in_month_bounds y m) as Hb.
    pose proof (days_in_month_bounds y (m + 1)) as Hb1.
    pose proof (days_in_month_bounds (y + 1) 1) as Hb2.
    remember (days_in_month y m) as dim eqn:Hdim.
    assert (dim = 28 ∨ dim = 29 ∨ dim = 30 ∨ dim = 31) as Hcases by lia.
    unfold replace_day_28, add_days, next_day, mbind, option_bind.
    cbn [year month day hour minute second microsecond].
    rewrite <- !Hdim.
    destruct (decide (m < 12)) as [Hlt|Hge];
      destruct Hcases as [->|[->|[->| ->]]];
      repeat (calendar_step; rewrite <- ?Hdim);
      eexists _, _; (split; [reflexivity|]);
      simpl (day _);
      match goal with
      | |- context [Z.to_nat ?z] =>
          let n := eval vm_compute in (Z.to_nat z) in
          change (Z.to_nat z) with n
      end;
      repeat (rewrite sub_days_S; unfold prev_day at 1;
              cbn [year month day hour minute second microsecond];
              repeat calendar_step);
      reflexivity.
Qed.

(** *** Parsing and printing months *)

Lemma is_digit_value c :
  is_digit c = true → 0 ≤ Z.of_N (N_of_ascii c) - 48 ≤ 9.
Proof.
  unfold is_digit. intros [H1 H2]%andb_prop.
  apply N.leb_le in H1, H2. lia.
Qed.

Lemma digits_value_bound s acc v :
  0 ≤ acc → digits_value acc s = Some v →
  acc * 10 ^ Z.of_nat (String.length s) ≤ v
  < (acc + 1) * 10 ^ Z.of_nat (String.length s).
Proof.
  revert acc. induction s as [|c s IH]; intros acc Hacc; simpl digits_value.
  - intros [= <-]. simpl. lia.
  - destruct (is_digit c) eqn:Hc; [|done]. intros Hv.
    apply is_digit_value in Hc. apply IH in Hv; [|lia].
    change (String.length (String c s)) with (S (String.length s)).
    rewrite Nat2Z.inj_succ, Z.pow_succ_r by lia.
    assert (0 < 10 ^ Z.of_nat (String.length s)) by (apply Z.pow_pos_nonneg; lia).
    nia.
Qed.

Lemma strptime_mY_fields s d :
  strptime_mY s = Some d →
  1 ≤ month d ≤ 12 ∧ 1 ≤ year d ≤ 9999 ∧
  d = {| year := year d; month := month d; day := 1; hour := 0; minute := 0;
         second := 0; microsecond := 0 |}.
Proof.
  unfold strptime_mY.
  destruct (split "/" s) as [|m [|y [|? ?]]]; try done.
  destruct (month_field m) as [mv|] eqn:Hm; [|done].
  destruct (year_field y) as [yv|] eqn:Hy; [|done].
  case_decide; [|done]. intros [= <-]. simpl.
  split.
  { unfold month_field in Hm. case_decide; [|done].
    destruct (digits_value 0 m); [|done]. case_decide; by simplify_eq. }
  split; [|done]. split; [done|].
  unfold year_field in Hy. case_decide as Hlen; [|done].
  apply digits_value_bound in Hy; [|done]. rewrite Hlen in Hy.
  change (10 ^ Z.of_nat 4) with 10000 in Hy. lia.
Qed.

Lemma N_of_ascii_digit n : N_of_ascii (digit n) = (48 + Z.to_N (n mod 10))%N.
Proof.
  unfold digit. apply N_ascii_embedding.
  pose proof (Z.mod_pos_bound n 10). lia.
Qed.

Lemma is_digit_digit n : is_digit (digit n) = true.
Proof.
  unfold is_digit. rewrite N_of_ascii_digit.
  pose proof (Z.mod_pos_bound n 10).
  apply andb_true_intro. split; apply N.leb_le; lia.
Qed.

Lemma digit_value n : Z.of_N (N_of_ascii (digit n)) - 48 = n mod 10.
Proof. rewrite N_of_ascii_digit. pose proof (Z.mod_pos_bound n 10). lia. Qed.

Lemma digit_not_slash n : digit n ≠ "/"%char.
Proof.
  intros H. apply (f_equal N_of_ascii) in H. rewrite N_of_ascii_digit in H.
  vm_compute (N_of_ascii "/") in H. lia.
Qed.

Lemma split_digit n s :
  split "/" (String (digit n) s)
  = match split "/" s with
    | f :: fs => String (digit n) f :: fs
    | [] => [String (digit n) EmptyString]
    end.
Proof. simpl. by rewrite decide_False by apply digit_not_slash. Qed.

Lemma split_slash s : split "/" (String "/" s) = EmptyString :: split "/" s.
Proof. reflexivity. Qed.

Lemma digits_value_digit acc n s :
  digits_value acc (String (digit n) s) = digits_value (10 * acc + n mod 10) s.
Proof. simpl. by rewrite is_digit_digit, digit_value. Qed.

Lemma month_field_pad2 m : 1 ≤ m ≤ 12 → month_field (pad2 m) = Some m.
Proof.
  intros Hm.
  assert (m = 1 ∨ m = 2 ∨ m = 3 ∨ m = 4 ∨ m = 5 ∨ m = 6 ∨ m = 7 ∨ m = 8 ∨
          m = 9 ∨ m = 10 ∨ m = 11 ∨ m = 12) as Hcases by lia.
  destruct Hcases as [->|[->|[->|[->|[->|[->|[->|[->|[->|[->|[->| ->]]]]]]]]]]];
    reflexivity.
Qed.

Lemma year_field_pad4 y : 0 ≤ y ≤ 9999 → year_field (pad4 y) = Some y.
Proof.
  intros Hy. unfold year_field, pad4, pad2. cbv [String.append].
  rewrite decide_True by reflexivity.
  rewrite !digits_value_digit. simpl digits_value. f_equal.
  Z.div_mod_to_equations. lia.
Qed.

(** A month printed by [strftime_mY] is read back by [strptime_mY] as the
    first day of that month. *)
Lemma strptime_mY_strftime_mY d :
  1 ≤ month d ≤ 12 → 1000 ≤ year d ≤ 9999 →
  strptime_mY (strftime_mY d)
  = Some {| year := year d; month := month d; day := 1; hour := 0;
            minute := 0; second := 0; microsecond := 0 |}.
Proof.
  intros Hm Hy. unfold strptime_mY.
  assert (split "/" (strftime_mY d) = [pad2 (month d); pad4 (year d)]) as ->.
  { unfold strftime_mY, strftime_Y. rewrite decide_True by lia.
    unfold pad4, pad2. cbv [String.append].
    rewrite !split_digit, split_slash, !split_digit. reflexivity. }
  rewrite month_field_pad2, year_field_pad4 by lia.
  by rewrite decide_True by lia.
Qed.

(** The rows of a month that is read and has a last day in the calendar. *)
Lemma get_reports_in_month_listing db s user_id d :
  strptime_mY s = Some d → ¬ (month d = 12 ∧ year d = 9999) →
  ∃ rows,
    get_reports_in_month db s user_id = Month.Rows rows ∧
    ∀ r : row Report.t,
      (∃ row, row ∈ rows ∧ Month.Report_ row = r) ↔
      reports db !! r.1 = Some r.2 ∧
      month (Report.date r.2) = month d ∧ year (Report.date r.2) = year d ∧
      (truthy user_id → user_id = Some (Report.operator_id r.2)).
Proof.
  intros Hd Hne. unfold get_reports_in_month. rewrite Hd.
  destruct (strptime_mY_fields s d Hd) as (Hm & Hy & Heq).
  destruct (proj2 (month_end (year d) (month d) Hm Hy) Hne)
    as (e & e' & He & He').
  cbv zeta in He. rewrite <- Heq in He. rewrite He, He'. cbv zeta.
  eexists. split; [reflexivity|]. intros r.
  assert (∀ a b : option Z, truthy b → sql_eq a b ↔ b = a) as Hsql.
  { intros [a|] [b|]; simpl; intros; split; intros; simplify_eq; done. }
  split.
  - intros (row & (j & -> & Hj)%list_elem_of_fmap & <-). simpl.
    assert (j ∈ get_reports_in_month_joined db ∧
            (month (Report.date (Month.j_report j).2) = month d ∧
             year (Report.date (Month.j_report j).2) = year d) ∧
            (truthy user_id →
             user_id = Some (Report.operator_id (Month.j_report j).2)))
      as (Hjin & [Hmo Hye] & Hu).
    { destruct (decide (truthy user_id)) as [Ht|Ht].
      - apply list_elem_of_filter in Hj as [Hop Hj].
        apply list_elem_of_filter in Hj as [Hdate Hj].
        repeat split; try tauto. intros _. by apply Hsql.
      - apply list_elem_of_filter in Hj as [Hdate Hj]. tauto. }
    split; [|done].
    apply get_reports_in_month_joined_report. by exists j.
  - intros (Hr & Hmo & Hye & Hu).
    apply get_reports_in_month_joined_report in Hr as (j & Hj & <-).
    exists (Month.select j). split; [|done].
    apply list_elem_of_fmap. exists j. split; [done|].
    destruct (decide (truthy user_id)) as [Ht|Ht].
    + apply list_elem_of_filter. split; [by apply Hsql, Hu|].
      by apply list_elem_of_filter.
    + by apply list_elem_of_filter.
Qed.

(** X28: [get_reports_in_month]: a string of ASCII characters that is no
    month raises [ValueError]; December 9999 raises [OverflowError]; for
    every other month the rows are those of all the reports dated in the
    month that pass the operator filter, be their commission, machine or
    operator missing. *)
Theorem get_reports_in_month_outcome db s user_id :
  (isascii s = true → strptime_mY s = None →
   get_reports_in_month db s user_id = Month.RaiseValueError) ∧
  (∀ d, strptime_mY s = Some d → month d = 12 ∧ year d = 9999 →
   get_reports_in_month db s user_id = Month.RaiseOverflowError) ∧
  (∀ d, strptime_mY s = Some d → ¬ (month d = 12 ∧ year d = 9999) →
   ∃ rows,
     get_reports_in_month db s user_id = Month.Rows rows ∧
     ∀ r : row Report.t,
       (∃ row, row ∈ rows ∧ Month.Report_ row = r) ↔
       reports db !! r.1 = Some r.2 ∧
       month (Report.date r.2) = month d ∧ year (Report.date r.2) = year d ∧
       (truthy user_id → user_id = Some (Report.operator_id r.2))).
Proof.
  split; [|split].
  - intros _ Hs. unfold get_reports_in_month. by rewrite Hs.
  - intros d Hd Hdec. unfold get_reports_in_month. rewrite Hd.
    destruct (strptime_mY_fields s d Hd) as (Hm & Hy & Heq).
    pose proof (proj1 (month_end (year d) (month d) Hm Hy) Hdec) as He.
    cbv zeta in He. rewrite <- Heq in He. by rewrite He.
  - intros d. apply get_reports_in_month_listing.
Qed.

Lemma get_reports_in_month_outcome_witness :
  get_reports_in_month Fixture.db "2024-01" None = Month.RaiseValueError ∧
  get_reports_in_month Fixture.db "12/9999" None = Month.RaiseOverflowError ∧
  ∃ rows,
    get_reports_in_month Fixture.db "01/2024" None = Month.Rows rows ∧
    ∃ row, row ∈ rows ∧
      Month.Report_ row
      = (3, Fixture.report "machine" (Some 3) 2 (Fixture.day 2024 1 5)).
Proof.
  destruct (get_reports_in_month_outcome Fixture.db "2024-01" None)
    as (H1 & _).
  destruct (get_reports_in_month_outcome Fixture.db "12/9999" None)
    as (_ & H2 & _).
  destruct (get_reports_in_month_outcome Fixture.db "01/2024" None)
    as (_ & _ & H3).
  split; [apply H1; reflexivity|].
  split; [apply (H2 (Fixture.day 9999 12 1)); [reflexivity|done]|].
  destruct (H3 (Fixture.day 2024 1 1)) as (rows & E & Hrows);
    [reflexivity|simpl; lia|].
  exists rows. split; [exact E|]. apply Hrows. simpl. done.
Defined.

(** X29: The months [get_months] prints are months [get_reports_in_month] reads:
    for a report dated in the years 1000..9999, December 9999 apart, the
    month of the report, as printed, lists the report. *)
Theorem get_months_month_roundtrip db user_id id r :
  reports db !! id = Some r →
  1 ≤ month (Report.date r) ≤ 12 → 1000 ≤ year (Report.date r) ≤ 9999 →
  ¬ (month (Report.date r) = 12 ∧ year (Report.date r) = 9999) →
  (truthy user_id → user_id = Some (Report.operator_id r)) →
  strftime_mY (Report.date r) ∈ get_months db user_id None ∧
  ∃ rows row,
    get_reports_in_month db (strftime_mY (Report.date r)) user_id
    = Month.Rows rows ∧
    row ∈ rows ∧ Month.Report_ row = (id, r).
Proof.
  intros Hr Hm Hy Hne Hu. split.
  { apply elem_of_get_months. exists (id, r). done. }
  destruct (get_reports_in_month_listing db (strftime_mY (Report.date r))
              user_id _ (strptime_mY_strftime_mY _ Hm Hy) Hne)
    as (rows & E & Hrows).
  destruct (proj2 (Hrows (id, r))) as (row & Hrow & Hrep); [done|].
  by exists rows, row.
Qed.

Lemma get_months_month_roundtrip_witness :
  "02/2023" ∈ get_months Fixture3.db (Some 2) None ∧
  ∃ rows row,
    get_reports_in_month Fixture3.db "02/2023" (Some 2) = Month.Rows rows ∧
    row ∈ rows ∧
    Month.Report_ row
    = (3, Fixture.report "commission" (Some 2) 2 (Fixture.day 2023 2 6)).
Proof.
  apply (get_months_month_roundtrip Fixture3.db (Some 2) 3
           (Fixture.report "commission" (Some 2) 2 (Fixture.day 2023 2 6)));
    [reflexivity|simpl; lia|simpl; lia|simpl; lia|done].
Defined.
